(** * Tricord: the platform availability checker of [main.py]

    A shallow embedding of [SearchCog.check_platform] together with the
    parts of [SearchBot] it touches (the static platform table and the
    lazily created HTTP session), and the properties of its time-bounded
    cache.

    Modelling choices.
    - The cache [self.cache] is a Python dict keyed by the tuple
      [(platform, username)]; it is a [gmap (string * string) (Q * bool)].
    - [datetime.now().timestamp()] is a number of seconds with a
      fractional part; timestamps are rationals ([Q]) and the clock
      reading is an argument of the call.
    - The outbound HTTP transport is not part of the program: a call
      receives the function [net] that answers the request it sends,
      either with an HTTP status or with a raised exception.  Every call
      of [session.get] is appended to the list [sent] of the world, so
      the number of outbound requests can be counted.
    - Exceptions are values of [PyExc]; a computation returns a value or
      raises, and in both cases leaves a world behind, because Python
      keeps the mutations made before a [raise].                        *)

From Stdlib Require Import QArith ZArith String Ascii List Lia Lqa.
From stdpp Require Import gmap strings list fin_maps pretty.

Local Open Scope string_scope.
Local Open Scope list_scope.

(** ** Python exceptions and computations *)

Inductive PyExc : Type :=
  | ClientError (msg : string)      (* aiohttp.ClientError and subclasses *)
  | TimeoutError (msg : string)     (* asyncio.TimeoutError *)
  | KeyError (key : string)         (* dict subscript on a missing key *)
  | OtherException (msg : string).  (* any other exception class *)

(** [str(e)] *)
Definition str (e : PyExc) : string :=
  match e with
  | ClientError msg | TimeoutError msg | OtherException msg => msg
  | KeyError key => "'" +:+ key +:+ "'"
  end.

Inductive Outcome (A : Type) : Type :=
  | Returns (a : A)
  | Raised (e : PyExc).
Arguments Returns {A} a.
Arguments Raised {A} e.

(** One outbound GET: the URL and the [allow_redirects] flag
    (aiohttp's default for [get] is [True]). *)
Record Request : Type := { req_url : string; allow_redirects : bool }.

(** What the transport answers: a response with its status, or an
    exception raised by [session.get]. *)
Inductive Reply : Type :=
  | Status (code : Z)
  | Raises (e : PyExc).

(** The mutable objects reachable from the cog. *)
Record World : Type := {
  cache : gmap (string * string) (Q * bool);  (* SearchCog.cache *)
  session_open : bool;                        (* bot._session is open *)
  sent : list Request;                        (* calls of session.get *)
  logged : list string                        (* logger.error lines *)
}.

Definition Py (A : Type) : Type := World → Outcome A * World.

Definition ret {A} (a : A) : Py A := λ w, (Returns a, w).

Definition bind {A B} (m : Py A) (k : A → Py B) : Py B :=
  λ w, match m w with
       | (Returns a, w') => k a w'
       | (Raised e, w') => (Raised e, w')
       end.

Definition raise {A} (e : PyExc) : Py A := λ w, (Raised e, w).

(** [try: body  except <classes> as e: handler e] *)
Definition try_except {A} (body : Py A) (catches : PyExc → bool)
    (handler : PyExc → Py A) : Py A :=
  λ w, match body w with
       | (Raised e, w') => if catches e then handler e w' else (Raised e, w')
       | r => r
       end.

(** stdpp's monad notations: [x ← m; k] and [m ;; k]. *)
#[global] Instance Py_ret : MRet Py := @ret.
#[global] Instance Py_bind : MBind Py := λ A B k m, bind m k.

(** ** SearchBot: the platform table and the session property *)

Module SearchBot.

Record PlatformSpec : Type := { url : string; regex : string }.

(** [self.platforms], in insertion order. *)
Definition platforms : list (string * PlatformSpec) :=
  [ ("facebook",  {| url := "https://facebook.com/";      regex := "^[a-zA-Z0-9.]+$" |});
    ("twitter",   {| url := "https://twitter.com/";       regex := "^[A-Za-z0-9_]{1,15}$" |});
    ("instagram", {| url := "https://instagram.com/";     regex := "^[A-Za-z0-9_.]{1,30}$" |});
    ("linkedin",  {| url := "https://linkedin.com/in/";   regex := "^[a-zA-Z0-9-]{5,30}$" |});
    ("github",    {| url := "https://github.com/";        regex := "^[a-zA-Z0-9-]{1,39}$" |});
    ("youtube",   {| url := "https://youtube.com/@";      regex := "^[a-zA-Z0-9-]{3,30}$" |});
    ("twitch",    {| url := "https://twitch.tv/";         regex := "^[a-zA-Z0-9_]{4,25}$" |});
    ("tiktok",    {| url := "https://tiktok.com/@";       regex := "^[a-zA-Z0-9_.]{2,24}$" |});
    ("reddit",    {| url := "https://reddit.com/user/";   regex := "^[a-zA-Z0-9_-]{3,20}$" |}) ].

(** The first entry of an insertion-ordered dict with the given key. *)
Fixpoint dict_get {V} (d : list (string * V)) (key : string) : option V :=
  match d with
  | [] => None
  | (k, v) :: d' => if String.eqb k key then Some v else dict_get d' key
  end.

(** [self.platforms[platform]]: raises [KeyError] on a missing key. *)
Definition platforms_getitem (platform : string) : Py PlatformSpec :=
  match dict_get platforms platform with
  | Some spec => ret spec
  | None => raise (KeyError platform)
  end.

(** The [session] property: the session is created when there is none
    or when it has been closed. *)
Definition session : Py unit :=
  λ w, if session_open w
       then (Returns tt, w)
       else (Returns tt, {| cache := cache w; session_open := true;
                            sent := sent w; logged := logged w |}).

(** [session.get(url, allow_redirects=...)] entered as a context
    manager: the request goes out, and the transport answers. *)
Definition session_get (net : Request → Reply) (req : Request) : Py Z :=
  λ w, let w' := {| cache := cache w; session_open := session_open w;
                    sent := sent w ++ [req]; logged := logged w |} in
       match net req with
       | Status code => (Returns code, w')
       | Raises e => (Raised e, w')
       end.

End SearchBot.

(** ** SearchCog: the cache and [check_platform] *)

Module SearchCog.
Import SearchBot.

(** [self.cache_ttl = 3600] *)
Definition cache_ttl : Q := 3600.

(** [x < y] on timestamps. *)
Definition Qltb (x y : Q) : bool := negb (Qle_bool y x).

(** [self.cache[cache_key] = (current_time, available)] *)
Definition cache_setitem (key : string * string) (v : Q * bool) : Py unit :=
  λ w, (Returns tt, {| cache := <[key := v]> (cache w);
                       session_open := session_open w;
                       sent := sent w; logged := logged w |}).

(** [logger.error(line)] *)
Definition logger_error (line : string) : Py unit :=
  λ w, (Returns tt, {| cache := cache w; session_open := session_open w;
                       sent := sent w; logged := logged w ++ [line] |}).

(** [except (aiohttp.ClientError, asyncio.TimeoutError)] *)
Definition transport_error (e : PyExc) : bool :=
  match e with
  | ClientError _ | TimeoutError _ => true
  | KeyError _ | OtherException _ => false
  end.

(** The [try] block of [check_platform]: the platform-specific request,
    then the cache update.  In the last branch the [session] property
    is evaluated before the argument [platforms[platform]['url'] +
    username], as Python evaluates the callee before its arguments. *)
Definition lookup (net : Request → Reply) (current_time : Q)
    (platform username : string) : Py (option bool) :=
  let cache_key := (platform, username) in
  available ←
    (if String.eqb platform "github" then
       session ;;
       status ← session_get net
         {| req_url := "https://api.github.com/users/" +:+ username;
            allow_redirects := true |};
       mret (status =? 404)%Z
     else if String.eqb platform "instagram" then
       session ;;
       status ← session_get net
         {| req_url := "https://www.instagram.com/" +:+ username +:+ "/";
            allow_redirects := false |};
       mret ((status =? 404)%Z || (status =? 302)%Z)
     else
       session ;;
       spec ← platforms_getitem platform;
       status ← session_get net
         {| req_url := url spec +:+ username; allow_redirects := false |};
       mret (status =? 404)%Z);
  cache_setitem cache_key (current_time, available) ;;
  mret (Some available).

(** [check_platform(platform, username)] run when the clock reads
    [now].  [Some true] is Available, [Some false] is Taken and [None]
    is the error result. *)
Definition check_platform (net : Request → Reply) (now : Q)
    (platform username : string) : Py (option bool) :=
  let cache_key := (platform, username) in
  let current_time := now in
  λ w,
    let fetch :=
      try_except (lookup net current_time platform username)
        transport_error
        (λ e, logger_error ("Error checking " +:+ platform +:+ ": " +:+ str e) ;;
              mret None) in
    match cache w !! cache_key with
    | Some (cached_time, available) =>
        if Qltb (current_time - cached_time) cache_ttl
        then (Returns (Some available), w)
        else fetch w
    | None => fetch w
    end.

(** *** What one call does, read off the branches of [lookup]

    [request_for] is the request a call sends for a platform ([None]
    when the table has no such platform, so that nothing is sent) and
    [verdict] is how the status of the response is read.  Both are
    proved to agree with the code in [lookup_run] below. *)
Definition request_for (platform username : string) : option Request :=
  if String.eqb platform "github" then
    Some {| req_url := "https://api.github.com/users/" +:+ username;
            allow_redirects := true |}
  else if String.eqb platform "instagram" then
    Some {| req_url := "https://www.instagram.com/" +:+ username +:+ "/";
            allow_redirects := false |}
  else
    spec ← dict_get platforms platform;
    Some {| req_url := url spec +:+ username; allow_redirects := false |}.

Definition verdict (platform : string) (status : Z) : bool :=
  if String.eqb platform "instagram"
  then (status =? 404)%Z || (status =? 302)%Z
  else (status =? 404)%Z.

(** The worlds a call can leave behind. *)
Definition opened (w : World) : World :=
  {| cache := cache w; session_open := true;
     sent := sent w; logged := logged w |}.

Definition requested (req : Request) (w : World) : World :=
  {| cache := cache w; session_open := true;
     sent := sent w ++ [req]; logged := logged w |}.

Definition stored (key : string * string) (v : Q * bool) (req : Request)
    (w : World) : World :=
  {| cache := <[key := v]> (cache w); session_open := true;
     sent := sent w ++ [req]; logged := logged w |}.

Definition failed (line : string) (req : Request) (w : World) : World :=
  {| cache := cache w; session_open := true;
     sent := sent w ++ [req]; logged := logged w ++ [line] |}.

(** The entry of a key is missing or too old to be served at [now]. *)
Definition stale_or_absent (w : World) (now : Q) (key : string * string) : Prop :=
  ∀ t r, cache w !! key = Some (t, r) → (cache_ttl <= now - t)%Q.

(** The platform is a key of the table. *)
Definition configured (platform : string) : Prop :=
  is_Some (dict_get platforms platform).

(** The worlds of the examples: nothing cached, nothing sent. *)
Definition fresh_world : World :=
  {| cache := ∅; session_open := false; sent := []; logged := [] |}.

Definition answers (code : Z) : Request → Reply := λ _, Status code.
Definition times_out : Request → Reply := λ _, Raises (TimeoutError "timeout").

(** Every call is of one of five kinds. *)
Inductive call_kind (net : Request → Reply) (now : Q)
    (platform username : string) (w : World) :
    Outcome (option bool) * World → Prop :=
  | served t r :
      cache w !! (platform, username) = Some (t, r) →
      Qltb (now - t) cache_ttl = true →
      call_kind net now platform username w (Returns (Some r), w)
  | no_such_platform :
      stale_or_absent w now (platform, username) →
      request_for platform username = None →
      call_kind net now platform username w
        (Raised (KeyError platform), opened w)
  | fetched req code :
      stale_or_absent w now (platform, username) →
      request_for platform username = Some req →
      net req = Status code →
      call_kind net now platform username w
        (Returns (Some (verdict platform code)),
         stored (platform, username) (now, verdict platform code) req w)
  | absorbed req e :
      stale_or_absent w now (platform, username) →
      request_for platform username = Some req →
      net req = Raises e →
      transport_error e = true →
      call_kind net now platform username w
        (Returns None,
         failed ("Error checking " +:+ platform +:+ ": " +:+ str e) req w)
  | escaped req e :
      stale_or_absent w now (platform, username) →
      request_for platform username = Some req →
      net req = Raises e →
      transport_error e = false →
      call_kind net now platform username w (Raised e, requested req w).

(** The cached keys all name platforms of the table. *)
Definition keys_configured (w : World) : Prop :=
  ∀ platform username,
    is_Some (cache w !! (platform, username)) → configured platform.

(** A history of calls, each with the clock reading and the transport
    it meets, run one after the other: the world a call leaves behind,
    whether it returns or raises, is the one the next call starts from. *)
Record Call : Type := {
  call_net : Request → Reply;
  call_now : Q;
  call_platform : string;
  call_username : string
}.

Definition run_call (w : World) (c : Call) : World :=
  snd (check_platform (call_net c) (call_now c)
         (call_platform c) (call_username c) w).

Definition run_calls (calls : list Call) (w : World) : World :=
  fold_left run_call calls w.

(** A world with one cached entry: alice is Taken on twitter since
    time 0. *)
Definition alice_cached : World :=
  {| cache := {[ ("twitter", "alice") := (0%Q, false) ]};
     session_open := true;
     sent := [ {| req_url := "https://twitter.com/alice";
                  allow_redirects := false |} ];
     logged := [] |}.

End SearchCog.

(** ** Python string and dict operations used by the commands

    Strings are sequences of bytes (UTF-8).  [replace] and [before] act
    on one-byte ASCII separators, which never occur inside a multi-byte
    sequence, so they agree with Python's code-point versions.  The case
    functions are Python's on ASCII letters and leave every other byte
    alone; the program applies them to keys of the platform table only. *)

Module PyStr.

Definition newline : string := String (ascii_of_nat 10) EmptyString.

(** [s.replace(old, new)] for a one-character [old]. *)
Fixpoint replace (old : ascii) (new : string) (s : string) : string :=
  match s with
  | EmptyString => EmptyString
  | String c s' =>
      if Ascii.eqb c old then new +:+ replace old new s'
      else String c (replace old new s')
  end.

Definition is_upper (c : ascii) : bool :=
  (65 <=? nat_of_ascii c)%nat && (nat_of_ascii c <=? 90)%nat.

Definition is_lower (c : ascii) : bool :=
  (97 <=? nat_of_ascii c)%nat && (nat_of_ascii c <=? 122)%nat.

Definition upper (c : ascii) : ascii :=
  if is_lower c then ascii_of_nat (nat_of_ascii c - 32) else c.

Definition lower (c : ascii) : ascii :=
  if is_upper c then ascii_of_nat (nat_of_ascii c + 32) else c.

Fixpoint lower_all (s : string) : string :=
  match s with
  | EmptyString => EmptyString
  | String c s' => String (lower c) (lower_all s')
  end.

(** [s.capitalize()]: the first character in upper case, the others in
    lower case. *)
Definition capitalize (s : string) : string :=
  match s with
  | EmptyString => EmptyString
  | String c s' => String (upper c) (lower_all s')
  end.

(** [s.title()]: a letter that follows a letter is lowered, a letter that
    does not is raised. *)
Fixpoint title_from (previous_is_cased : bool) (s : string) : string :=
  match s with
  | EmptyString => EmptyString
  | String c s' =>
      if is_lower c then
        String (if previous_is_cased then c else upper c) (title_from true s')
      else if is_upper c then
        String (if previous_is_cased then lower c else c) (title_from true s')
      else String c (title_from false s')
  end.

Definition title (s : string) : string := title_from false s.

(** [s.split(sep)[0]]: what comes before the first [sep]. *)
Fixpoint before (sep : ascii) (s : string) : string :=
  match s with
  | EmptyString => EmptyString
  | String c s' => if Ascii.eqb c sep then EmptyString else String c (before sep s')
  end.

Fixpoint zeros (n : nat) : string :=
  match n with
  | O => EmptyString
  | S n' => String "0"%char (zeros n')
  end.

(** ["%0<width>d" % n] for [n >= 0]. *)
Definition zero_padded (width : nat) (n : Z) : string :=
  zeros (width - String.length (pretty n)) +:+ pretty n.

(** [str] of a [timedelta] with normalised fields: [0 <= seconds < 86400]
    and [0 <= microseconds < 1000000]. *)
Definition timedelta_str (days seconds microseconds : Z) : string :=
  let mm := (seconds / 60)%Z in
  let ss := (seconds mod 60)%Z in
  let hh := (mm / 60)%Z in
  let mm := (mm mod 60)%Z in
  let s := pretty hh +:+ ":" +:+ zero_padded 2 mm +:+ ":" +:+ zero_padded 2 ss in
  let s :=
    if (days =? 0)%Z then s
    else pretty days +:+ " day" +:+ (if (Z.abs days =? 1)%Z then "" else "s")
         +:+ ", " +:+ s in
  if (microseconds =? 0)%Z then s
  else s +:+ "." +:+ zero_padded 6 microseconds.

(** [d[key] = v] on an insertion-ordered dict: an existing key keeps its
    place, a new key goes last. *)
Fixpoint dict_set {V} (d : list (string * V)) (key : string) (v : V)
    : list (string * V) :=
  match d with
  | [] => [(key, v)]
  | (k, x) :: d' =>
      if String.eqb k key then (k, v) :: d' else (k, x) :: dict_set d' key v
  end.

(** [c in s] for a one-character [c]. *)
Fixpoint occurs (c : ascii) (s : string) : bool :=
  match s with
  | EmptyString => false
  | String c' s' => Ascii.eqb c' c || occurs c s'
  end.

(** [range(0, stop, step)] for [step > 0]. *)
Definition range_step (stop step : nat) : list nat :=
  map (λ k, k * step)%nat (seq 0 ((stop + step - 1) / step)).

End PyStr.

(** ** What the bot says: embeds and replies *)

Module Discord.

Inductive Colour : Type := blue | green.

Record Field : Type := {
  field_name : string;
  field_value : string;
  field_inline : bool
}.

Record Embed : Type := {
  embed_title : option string;
  embed_description : option string;
  embed_colour : Colour;
  embed_fields : list Field;
  embed_footer : option string
}.

(** [discord.Embed(title=..., description=..., color=...)] *)
Definition new_embed (title description : option string) (colour : Colour) : Embed :=
  {| embed_title := title; embed_description := description;
     embed_colour := colour; embed_fields := []; embed_footer := None |}.

(** [embed.add_field(name=..., value=..., inline=...)] *)
Definition add_field (e : Embed) (name value : string) (inline : bool) : Embed :=
  {| embed_title := embed_title e; embed_description := embed_description e;
     embed_colour := embed_colour e;
     embed_fields := embed_fields e ++
       [{| field_name := name; field_value := value; field_inline := inline |}];
     embed_footer := embed_footer e |}.

(** [embed.set_footer(text=...)] *)
Definition set_footer (e : Embed) (text : string) : Embed :=
  {| embed_title := embed_title e; embed_description := embed_description e;
     embed_colour := embed_colour e; embed_fields := embed_fields e;
     embed_footer := Some text |}.

(** What a command does with its context. *)
Inductive CtxAction : Type :=
  | Defer                      (* ctx.defer() *)
  | SendText (content : string)  (* ctx.send(content) *)
  | SendEmbed (embed : Embed).   (* ctx.send(embed=embed) *)

End Discord.

(** ** The commands of the three cogs

    A [Runtime] is the bot with what hangs off it: the [World] of
    [check_platform], the counter [search_count], the time the bot was
    created (in microseconds) and the replies made so far through the
    command contexts.  Calls of the Discord API are recorded and are
    taken to succeed. *)

Module Commands.
Import SearchBot SearchCog PyStr Discord.

Record Runtime : Type := {
  world : World;
  search_count : nat;
  start_time : Z;
  replies : list CtxAction
}.

Definition Cmd (A : Type) : Type := Runtime → Outcome A * Runtime.

#[global] Instance Cmd_ret : MRet Cmd := λ A a rt, (Returns a, rt).
#[global] Instance Cmd_bind : MBind Cmd := λ A B k m rt,
  match m rt with
  | (Returns a, rt') => k a rt'
  | (Raised e, rt') => (Raised e, rt')
  end.

(** A computation of the cog run on the world of the bot. *)
Definition lift {A} (m : Py A) : Cmd A :=
  λ rt, let r := m (world rt) in
        (fst r, {| world := snd r; search_count := search_count rt;
                   start_time := start_time rt; replies := replies rt |}).

(** [SearchBot.__init__], with the cache of the cog not yet filled. *)
Definition init (created : Z) : Runtime :=
  {| world := fresh_world; search_count := 0;
     start_time := created; replies := [] |}.

(** [self.bot.search_count += 1] *)
Definition count_search : Cmd unit :=
  λ rt, (Returns tt, {| world := world rt; search_count := S (search_count rt);
                        start_time := start_time rt; replies := replies rt |}).

Definition reply (a : CtxAction) : Cmd unit :=
  λ rt, (Returns tt, {| world := world rt; search_count := search_count rt;
                        start_time := start_time rt;
                        replies := replies rt ++ [a] |}).

(** [d[key]] *)
Definition dict_getitem {V} (d : list (string * V)) (key : string) : Cmd V :=
  match dict_get d key with
  | Some v => mret v
  | None => λ rt, (Raised (KeyError key), rt)
  end.

(** [SearchBot.close]: the session is closed when there is an open one. *)
Definition close : Cmd unit :=
  λ rt, if session_open (world rt)
        then (Returns tt,
              {| world := {| cache := cache (world rt); session_open := false;
                             sent := sent (world rt);
                             logged := logged (world rt) |};
                 search_count := search_count rt;
                 start_time := start_time rt; replies := replies rt |})
        else (Returns tt, rt).

(** *** SearchCog.name_search *)

(** The loop over [self.bot.platforms.items()]. *)
Fixpoint add_profile_links (name : string)
    (items : list (string * PlatformSpec)) (embed : Embed) : Embed :=
  match items with
  | [] => embed
  | (platform, data) :: items' =>
      let profile_url := url data +:+ replace " " "" name in
      add_profile_links name items'
        (add_field embed (capitalize platform)
           ("[View Profile](" +:+ profile_url +:+ ")") true)
  end.

Definition name_search (name : string) : Cmd unit :=
  count_search ;;
  reply Defer ;;
  let embed := new_embed (Some ("🔍 Search Results for " +:+ name)) None blue in
  let embed := add_field embed "Google Search"
    ("[Search on Google](https://www.google.com/search?q="
       +:+ replace " " "+" name +:+ ")") false in
  let embed := add_profile_links name platforms embed in
  reply (SendEmbed embed).

(** *** SearchCog.username_check

    [fullmatch] stands for [re.fullmatch] (pattern first); each call of
    [check_platform] reads the clock and meets the transport on its own,
    so both are given per platform. *)

Definition invalid_platforms (fullmatch : string → string → bool)
    (username : string) : list string :=
  map fst (filter (λ item, negb (fullmatch (regex (snd item)) username)) platforms).

(** The loop [for platform in self.bot.platforms: results[platform] = ...] *)
Fixpoint check_all (net : string → Request → Reply)
    (clock : string → Q) (username : string) (keys : list string)
    (results : list (string * option bool))
    : Cmd (list (string * option bool)) :=
  match keys with
  | [] => mret results
  | platform :: keys' =>
      available ← lift (check_platform (net platform) (clock platform)
                          platform username);
      check_all net clock username keys' (dict_set results platform available)
  end.

Definition status_text (available : option bool) : string :=
  match available with
  | Some true => "✅ Available"
  | Some false => "❌ Taken"
  | None => "⚠️ Error"
  end.

(** The loop [for platform in chunk: ... embed.add_field(...)]. *)
Fixpoint add_results (results : list (string * option bool))
    (username : string) (chunk : list string) (embed : Embed) : Cmd Embed :=
  match chunk with
  | [] => mret embed
  | platform :: chunk' =>
      available ← dict_getitem results platform;
      let status := status_text available in
      spec ← dict_getitem platforms platform;
      add_results results username chunk'
        (add_field embed (capitalize platform)
           (status +:+ newline +:+ "[Check](" +:+ url spec +:+ username +:+ ")")
           true)
  end.

Definition chunk_size : nat := 6.

(** The loop [for i in range(0, len(platforms), chunk_size)]; it returns
    the embed that the variable [embed] holds in the end. *)
Fixpoint send_chunks (results : list (string * option bool))
    (username : string) (keys : list string) (starts : list nat)
    (embed : Embed) : Cmd Embed :=
  match starts with
  | [] => mret embed
  | i :: starts' =>
      let chunk := take chunk_size (drop i keys) in
      let embed := if (0 <? i)%nat then new_embed None None green else embed in
      embed ← add_results results username chunk embed;
      (if (0 <? i)%nat then reply (SendEmbed embed) else mret tt) ;;
      send_chunks results username keys starts' embed
  end.

Definition username_check (fullmatch : string → string → bool)
    (net : string → Request → Reply) (clock : string → Q)
    (username : string) : Cmd unit :=
  count_search ;;
  reply Defer ;;
  let invalid := invalid_platforms fullmatch username in
  (match invalid with
   | [] => mret tt
   | _ => reply (SendText ("⚠️ Username doesn't meet requirements for: "
                           +:+ title (String.concat ", " invalid)))
   end) ;;
  let embed := new_embed (Some ("Username Availability: " +:+ username)) None green in
  results ← check_all net clock username (map fst platforms) [];
  let keys := map fst platforms in
  embed ← send_chunks results username keys
            (range_step (length keys) chunk_size) embed;
  reply (SendEmbed embed).

(** *** StatsCog.show_stats and HelpCog.show_help *)

(** [guilds] is [len(self.bot.guilds)] and [now] the reading of
    [datetime.now()], in microseconds like [start_time]. *)
Definition show_stats (guilds : nat) (now : Z) : Cmd unit :=
  λ rt,
    let uptime := (now - start_time rt)%Z in
    let days := (uptime / 86400000000)%Z in
    let seconds := ((uptime mod 86400000000) / 1000000)%Z in
    let microseconds := (uptime mod 1000000)%Z in
    let embed := new_embed (Some "📊 Bot Statistics") None blue in
    let embed := add_field embed "Total Searches" (pretty (search_count rt)) true in
    let embed := add_field embed "Uptime"
      (before "." (timedelta_str days seconds microseconds)) true in
    let embed := add_field embed "Servers" (pretty guilds) true in
    reply (SendEmbed embed) rt.

Definition commands_list : list (string * string) :=
  [ ("!search <name>", "Search for a name across social media");
    ("!check <username>", "Check username availability");
    ("!stats", "Show bot statistics");
    ("!help", "Show this help message") ].

Definition show_help : Cmd unit :=
  let embed := new_embed (Some "🆘 Social Search Bot Help")
    (Some "A bot to search usernames across social media platforms") blue in
  let embed := fold_left (λ e cd, add_field e (fst cd) (snd cd) false)
                 commands_list embed in
  let embed := set_footer embed "Support: https://discord.gg/example" in
  reply (SendEmbed embed).

(** *** Histories of commands

    The framework runs one command after the other on the same bot; a
    command that raises leaves behind what it did up to there. *)
Inductive Command : Type :=
  | Search (name : string)
  | CheckUsername (fullmatch : string → string → bool)
      (net : string → Request → Reply) (clock : string → Q)
      (username : string)
  | Stats (guilds : nat) (now : Z)
  | Help.

Definition run_command (rt : Runtime) (c : Command) : Runtime :=
  snd (match c with
       | Search name => name_search name rt
       | CheckUsername fullmatch net clock username =>
           username_check fullmatch net clock username rt
       | Stats guilds now => show_stats guilds now rt
       | Help => show_help rt
       end).

Definition run_commands (cs : list Command) (rt : Runtime) : Runtime :=
  fold_left run_command cs rt.

(** The commands that count as searches. *)
Definition is_search (c : Command) : bool :=
  match c with
  | Search _ | CheckUsername _ _ _ _ => true
  | Stats _ _ | Help => false
  end.

(** *** What [username_check] says, read off its body

    [warning] is the text sent before the lookups, [result_field] the
    field added for one platform and [chunk_embed] the untitled embed
    made for a chunk that starts after the first one.  They are proved
    to agree with the code in [username_check_run]. *)
Definition warning (fullmatch : string → string → bool) (username : string)
    : list CtxAction :=
  match invalid_platforms fullmatch username with
  | [] => []
  | invalid =>
      [SendText ("⚠️ Username doesn't meet requirements for: "
                 +:+ title (String.concat ", " invalid))]
  end.

Definition result_field (results : list (string * option bool))
    (username platform : string) : Field :=
  {| field_name := capitalize platform;
     field_value :=
       status_text (default None (dict_get results platform)) +:+ newline
       +:+ "[Check]("
       +:+ default "" (url <$> dict_get platforms platform)
       +:+ username +:+ ")";
     field_inline := true |}.

Definition chunk_embed (results : list (string * option bool))
    (username : string) (chunk : list string) : Embed :=
  {| embed_title := None; embed_description := None; embed_colour := green;
     embed_fields := map (result_field results username) chunk;
     embed_footer := None |}.

(** The bot when the lookups of [username_check] begin. *)
Definition started (fullmatch : string → string → bool) (username : string)
    (rt : Runtime) : Runtime :=
  {| world := world rt; search_count := S (search_count rt);
     start_time := start_time rt;
     replies := replies rt ++ [Defer] ++ warning fullmatch username |}.

Definition replied (actions : list CtxAction) (rt : Runtime) : Runtime :=
  {| world := world rt; search_count := search_count rt;
     start_time := start_time rt; replies := replies rt ++ actions |}.

(** A result agrees with the cache: Available or Taken is what the
    entry of the key holds. *)
Definition agrees_with_cache (w : World) (username platform : string)
    (available : option bool) : Prop :=
  match available with
  | Some b => ∃ t, cache w !! (platform, username) = Some (t, b)
  | None => True
  end.

(** A command run on the bot as it is and on nothing else. *)
Definition same_bot (rt rt' : Runtime) : Prop :=
  search_count rt' = search_count rt
  ∧ start_time rt' = start_time rt
  ∧ replies rt' = replies rt.


End Commands.

(** ** Properties of [check_platform] *)

Module CheckPlatform.
Import SearchBot SearchCog.

Lemma Qltb_true x y : Qltb x y = true ↔ (x < y)%Q.
Proof.
  unfold Qltb. rewrite negb_true_iff, <- not_true_iff_false, Qle_bool_iff.
  split; [apply Qnot_le_lt | apply Qlt_not_le].
Qed.

Lemma Qltb_false x y : Qltb x y = false ↔ (y <= x)%Q.
Proof. unfold Qltb. by rewrite negb_false_iff, Qle_bool_iff. Qed.

Lemma session_run w : session w = (Returns tt, opened w).
Proof.
  unfold session, opened. destruct w as [c [] s l]; reflexivity.
Qed.

(** The [try] block, branch by branch. *)
Lemma lookup_run net now platform username w :
  lookup net now platform username w =
    match request_for platform username with
    | None => (Raised (KeyError platform), opened w)
    | Some req =>
        match net req with
        | Status code =>
            (Returns (Some (verdict platform code)),
             stored (platform, username) (now, verdict platform code) req w)
        | Raises e => (Raised e, requested req w)
        end
    end.
Proof.
  unfold lookup, request_for, verdict, platforms_getitem.
  unfold mbind, Py_bind, mret, Py_ret, bind, ret, raise. cbn beta.
  destruct (String.eqb platform "github") eqn:Hg.
  - apply String.eqb_eq in Hg as ->. cbn [String.eqb Ascii.eqb Bool.eqb].
    rewrite session_run. unfold session_get. cbn.
    destruct (net _); reflexivity.
  - destruct (String.eqb platform "instagram") eqn:Hi.
    + rewrite session_run. unfold session_get. cbn.
      destruct (net _); reflexivity.
    + rewrite session_run.
      destruct (dict_get platforms platform) as [spec|]; cbn; [|reflexivity].
      unfold session_get. cbn. destruct (net _); reflexivity.
Qed.

(** A call that does not find a servable entry runs the [try] block
    under its handler. *)
Lemma miss_run net now platform username w :
  stale_or_absent w now (platform, username) →
  check_platform net now platform username w =
    match request_for platform username with
    | None => (Raised (KeyError platform), opened w)
    | Some req =>
        match net req with
        | Status code =>
            (Returns (Some (verdict platform code)),
             stored (platform, username) (now, verdict platform code) req w)
        | Raises e =>
            if transport_error e
            then (Returns None,
                  failed ("Error checking " +:+ platform +:+ ": " +:+ str e) req w)
            else (Raised e, requested req w)
        end
    end.
Proof.
  intros Hmiss. unfold check_platform.
  assert (Hfetch : ∀ o : option (Q * bool),
    (∀ t r, o = Some (t, r) → Qltb (now - t) cache_ttl = false) →
    match o with
    | Some (cached_time, available) =>
        if Qltb (now - cached_time) cache_ttl
        then (Returns (Some available), w)
        else try_except (lookup net now platform username) transport_error
               (λ e, logger_error ("Error checking " +:+ platform +:+ ": " +:+ str e) ;;
                     mret None) w
    | None => try_except (lookup net now platform username) transport_error
               (λ e, logger_error ("Error checking " +:+ platform +:+ ": " +:+ str e) ;;
                     mret None) w
    end = try_except (lookup net now platform username) transport_error
               (λ e, logger_error ("Error checking " +:+ platform +:+ ": " +:+ str e) ;;
                     mret None) w).
  { intros [[t r]|] Ho; [|reflexivity]. by rewrite (Ho t r eq_refl). }
  rewrite Hfetch by (intros t r Ht; apply Qltb_false; eauto).
  unfold try_except. rewrite lookup_run.
  destruct (request_for platform username) as [req|]; [|reflexivity].
  destruct (net req) as [code|e]; [reflexivity|].
  destruct (transport_error e); reflexivity.
Qed.

(** A call that finds a young enough entry returns it and touches
    nothing. *)
Lemma hit_run net now platform username w t r :
  cache w !! (platform, username) = Some (t, r) →
  Qltb (now - t) cache_ttl = true →
  check_platform net now platform username w = (Returns (Some r), w).
Proof. intros Hc Ht. unfold check_platform. by rewrite Hc, Ht. Qed.

Lemma hit_or_miss w now key :
  (∃ t r, cache w !! key = Some (t, r) ∧ Qltb (now - t) cache_ttl = true)
  ∨ stale_or_absent w now key.
Proof.
  destruct (cache w !! key) as [[t r]|] eqn:Hc.
  - destruct (Qltb (now - t) cache_ttl) eqn:Ht; [left; eauto|].
    right. intros t' r' Heq. simplify_eq. by apply Qltb_false.
  - right. intros t r Heq. congruence.
Qed.

Lemma configured_request platform username :
  configured platform → is_Some (request_for platform username).
Proof.
  intros [spec Hs]. unfold request_for.
  repeat case_match; try done. rewrite Hs. by eexists.
Qed.

Lemma request_for_default platform username spec :
  dict_get platforms platform = Some spec →
  platform ≠ "github" → platform ≠ "instagram" →
  request_for platform username =
    Some {| req_url := url spec +:+ username; allow_redirects := false |}
  ∧ ∀ code, verdict platform code = (code =? 404)%Z.
Proof.
  intros Hs Hg%String.eqb_neq Hi%String.eqb_neq.
  unfold request_for, verdict. by rewrite Hg, Hi, Hs.
Qed.

Lemma unconfigured_request platform username :
  dict_get platforms platform = None → request_for platform username = None.
Proof.
  intros Hs. unfold request_for.
  destruct (String.eqb platform "github") eqn:Hg.
  { apply String.eqb_eq in Hg as ->. vm_compute in Hs. discriminate. }
  destruct (String.eqb platform "instagram") eqn:Hi.
  { apply String.eqb_eq in Hi as ->. vm_compute in Hs. discriminate. }
  by rewrite Hs.
Qed.

Lemma check_platform_kind net now platform username w :
  call_kind net now platform username w
    (check_platform net now platform username w).
Proof.
  destruct (hit_or_miss w now (platform, username)) as [(t & r & Hc & Ht)|Hmiss].
  - rewrite (hit_run _ _ _ _ _ _ _ Hc Ht). by eapply served.
  - rewrite (miss_run _ _ _ _ _ Hmiss).
    destruct (request_for platform username) as [req|] eqn:Hreq;
      [|by apply no_such_platform].
    destruct (net req) as [code|e] eqn:Hnet; [by apply fetched|].
    destruct (transport_error e) eqn:He; [by apply absorbed|by apply escaped].
Qed.

Lemma request_configured platform username req :
  request_for platform username = Some req → configured platform.
Proof.
  unfold request_for, configured.
  destruct (String.eqb platform "github") eqn:Hg.
  { apply String.eqb_eq in Hg as ->. intros _. by eexists. }
  destruct (String.eqb platform "instagram") eqn:Hi.
  { apply String.eqb_eq in Hi as ->. intros _. by eexists. }
  destruct (dict_get platforms platform); [by eexists | done].
Qed.

Lemma fresh_world_absent now key : stale_or_absent fresh_world now key.
Proof. intros t r Hc. cbn in Hc. by rewrite lookup_empty in Hc. Qed.

(** *** The cache *)

(** C1. If the cache holds an entry for [(platform, username)] whose
    age [now - timestamp] is strictly below the TTL of 3600 seconds,
    [check_platform] returns the cached result and leaves the world as
    it was: in particular no request is sent.  This holds for every
    platform string, hence for every configured platform. *)
Theorem check_platform_fresh_hit net now platform username w t r :
  cache w !! (platform, username) = Some (t, r) →
  (now - t < cache_ttl)%Q →
  check_platform net now platform username w = (Returns (Some r), w).
Proof.
  intros Hc Hage. unfold check_platform. rewrite Hc.
  apply Qltb_true in Hage. by rewrite Hage.
Qed.

Lemma check_platform_fresh_hit_witness :
  check_platform times_out 1800 "twitter" "alice" alice_cached
  = (Returns (Some false), alice_cached).
Proof.
  apply (check_platform_fresh_hit times_out 1800 "twitter" "alice"
           alice_cached 0 false); reflexivity.
Defined.

(** C2. In a world whose cached keys name platforms of the table (as in
    every world reached from the empty cache, [keys_configured_calls]),
    when the age of the cached entry has reached the TTL the call sends
    exactly one new request, whatever the cached result [r] was. *)
Theorem check_platform_stale_refetch net now platform username w t r :
  keys_configured w →
  cache w !! (platform, username) = Some (t, r) →
  (cache_ttl <= now - t)%Q →
  ∃ req, request_for platform username = Some req
       ∧ sent (snd (check_platform net now platform username w)) = sent w ++ [req].
Proof.
  intros Hw Hc Hage.
  assert (Hp : configured platform) by (apply (Hw platform username); by eexists).
  destruct (configured_request platform username Hp) as [req Hreq].
  exists req. split; [done|].
  rewrite miss_run, Hreq.
  - destruct (net req) as [code|e]; [done|]. by destruct (transport_error e).
  - intros t' r' Hc'. by simplify_eq.
Qed.

Lemma check_platform_stale_refetch_witness :
  ∃ req, request_for "twitter" "alice" = Some req
       ∧ sent (snd (check_platform (answers 200) 3600 "twitter" "alice"
                      alice_cached))
         = sent alice_cached ++ [req].
Proof.
  apply (check_platform_stale_refetch (answers 200) 3600 "twitter" "alice"
           alice_cached 0 false).
  - intros platform username [v Hv]. cbn in Hv.
    apply lookup_singleton_Some in Hv as [Hk _].
    injection Hk as <- _. by eexists.
  - reflexivity.
  - vm_compute. discriminate.
Defined.

(** C3. When the request of a call is answered by a transport failure
    ([aiohttp.ClientError] or [asyncio.TimeoutError]), the call returns
    the error result [None], raises nothing, and the whole cache is the
    one it started from. *)
Theorem check_platform_transport_failure net now platform username w req e :
  stale_or_absent w now (platform, username) →
  request_for platform username = Some req →
  net req = Raises e →
  transport_error e = true →
  fst (check_platform net now platform username w) = Returns None
  ∧ cache (snd (check_platform net now platform username w)) = cache w.
Proof.
  intros Hmiss Hreq Hnet He.
  rewrite (miss_run _ _ _ _ _ Hmiss), Hreq, Hnet, He. done.
Qed.

Lemma check_platform_transport_failure_witness :
  fst (check_platform times_out 0 "reddit" "alice" fresh_world) = Returns None
  ∧ cache (snd (check_platform times_out 0 "reddit" "alice" fresh_world))
    = cache fresh_world.
Proof.
  apply (check_platform_transport_failure times_out 0 "reddit" "alice"
           fresh_world
           {| req_url := "https://reddit.com/user/alice";
              allow_redirects := false |}
           (TimeoutError "timeout")).
  - apply fresh_world_absent.
  - reflexivity.
  - reflexivity.
  - reflexivity.
Defined.

(** *** The three interpretation rules *)

(** C4. For a platform of the table other than github and instagram, a
    call that goes to the network requests the profile URL of the table
    followed by the username, with redirects not followed, and returns
    Available ([Some true]) exactly when the status is 404 and Taken
    ([Some false]) for any other status. *)
Theorem check_platform_default_rule net now platform username w spec code :
  dict_get platforms platform = Some spec →
  platform ≠ "github" → platform ≠ "instagram" →
  stale_or_absent w now (platform, username) →
  net {| req_url := url spec +:+ username; allow_redirects := false |} = Status code →
  fst (check_platform net now platform username w) = Returns (Some (code =? 404)%Z)
  ∧ sent (snd (check_platform net now platform username w)) =
      sent w ++ [{| req_url := url spec +:+ username; allow_redirects := false |}].
Proof.
  intros Hs Hg Hi Hmiss Hnet.
  destruct (request_for_default platform username spec Hs Hg Hi) as [Hreq Hv].
  rewrite (miss_run _ _ _ _ _ Hmiss), Hreq, Hnet, Hv. done.
Qed.

Lemma check_platform_default_rule_witness :
  fst (check_platform (answers 404) 0 "twitch" "alice" fresh_world)
  = Returns (Some true)
  ∧ sent (snd (check_platform (answers 404) 0 "twitch" "alice" fresh_world))
    = [{| req_url := "https://twitch.tv/alice"; allow_redirects := false |}].
Proof.
  apply (check_platform_default_rule (answers 404) 0 "twitch" "alice"
           fresh_world
           {| url := "https://twitch.tv/"; regex := "^[a-zA-Z0-9_]{4,25}$" |}
           404).
  - reflexivity.
  - discriminate.
  - discriminate.
  - apply fresh_world_absent.
  - reflexivity.
Defined.

(** C5. For github, a call that goes to the network requests the
    user-lookup API [https://api.github.com/users/<username>] and not
    the profile page of the table, and returns Available exactly when
    the status is 404 and Taken for any other status. *)
Theorem check_platform_github_rule net now username w code :
  stale_or_absent w now ("github", username) →
  net {| req_url := "https://api.github.com/users/" +:+ username;
         allow_redirects := true |} = Status code →
  fst (check_platform net now "github" username w) = Returns (Some (code =? 404)%Z)
  ∧ sent (snd (check_platform net now "github" username w)) =
      sent w ++ [{| req_url := "https://api.github.com/users/" +:+ username;
                    allow_redirects := true |}].
Proof.
  intros Hmiss Hnet. rewrite (miss_run _ _ _ _ _ Hmiss).
  change (request_for "github" username)
    with (Some {| req_url := "https://api.github.com/users/" +:+ username;
                  allow_redirects := true |}).
  cbv beta iota. rewrite Hnet. done.
Qed.

Lemma check_platform_github_rule_witness :
  fst (check_platform (answers 200) 0 "github" "alice" fresh_world)
  = Returns (Some false)
  ∧ sent (snd (check_platform (answers 200) 0 "github" "alice" fresh_world))
    = [{| req_url := "https://api.github.com/users/alice";
          allow_redirects := true |}].
Proof.
  apply (check_platform_github_rule (answers 200) 0 "alice" fresh_world 200).
  - apply fresh_world_absent.
  - reflexivity.
Defined.

(** C6. For instagram, a call that goes to the network sends its
    request with redirects not followed, and returns Available exactly
    when the status is 404 or 302 and Taken for every other status. *)
Theorem check_platform_instagram_rule net now username w code :
  stale_or_absent w now ("instagram", username) →
  net {| req_url := "https://www.instagram.com/" +:+ username +:+ "/";
         allow_redirects := false |} = Status code →
  fst (check_platform net now "instagram" username w) =
    Returns (Some (bool_decide (code = 404 ∨ code = 302)%Z))
  ∧ sent (snd (check_platform net now "instagram" username w)) =
      sent w ++ [{| req_url := "https://www.instagram.com/" +:+ username +:+ "/";
                    allow_redirects := false |}].
Proof.
  intros Hmiss Hnet. rewrite (miss_run _ _ _ _ _ Hmiss).
  change (request_for "instagram" username)
    with (Some {| req_url := "https://www.instagram.com/" +:+ username +:+ "/";
                  allow_redirects := false |}).
  cbv beta iota. rewrite Hnet. cbn [fst snd stored sent]. split; [|done].
  do 2 f_equal. change (verdict "instagram" code)
    with ((code =? 404)%Z || (code =? 302)%Z).
  case_bool_decide as Hd.
  - destruct Hd as [-> | ->]; reflexivity.
  - apply orb_false_iff. split; apply Z.eqb_neq; intros ->; tauto.
Qed.

Lemma check_platform_instagram_rule_witness :
  fst (check_platform (answers 302) 0 "instagram" "alice" fresh_world)
  = Returns (Some true)
  ∧ sent (snd (check_platform (answers 302) 0 "instagram" "alice" fresh_world))
    = [{| req_url := "https://www.instagram.com/alice/";
          allow_redirects := false |}].
Proof.
  apply (check_platform_instagram_rule (answers 302) 0 "alice" fresh_world 302).
  - apply fresh_world_absent.
  - reflexivity.
Defined.

(** C7. When the request of a call is answered with a response, the
    call stores [(now, result)] under the key [(platform, username)],
    replacing whatever entry the key had, and returns that same
    result. *)
Theorem check_platform_success_stores net now platform username w req code :
  stale_or_absent w now (platform, username) →
  request_for platform username = Some req →
  net req = Status code →
  ∃ result,
    fst (check_platform net now platform username w) = Returns (Some result)
    ∧ cache (snd (check_platform net now platform username w)) =
        <[(platform, username) := (now, result)]> (cache w)
    ∧ cache (snd (check_platform net now platform username w))
        !! (platform, username) = Some (now, result).
Proof.
  intros Hmiss Hreq Hnet. exists (verdict platform code).
  rewrite (miss_run _ _ _ _ _ Hmiss), Hreq, Hnet. cbn [fst snd stored cache].
  split_and!; [done..|]. apply lookup_insert_eq.
Qed.

Lemma check_platform_success_stores_witness :
  ∃ result,
    fst (check_platform (answers 404) 3601 "twitter" "alice" alice_cached)
    = Returns (Some result)
    ∧ cache (snd (check_platform (answers 404) 3601 "twitter" "alice"
                    alice_cached))
      = <[("twitter", "alice") := (3601%Q, result)]> (cache alice_cached)
    ∧ cache (snd (check_platform (answers 404) 3601 "twitter" "alice"
                    alice_cached))
        !! ("twitter", "alice") = Some (3601%Q, result).
Proof.
  apply (check_platform_success_stores (answers 404) 3601 "twitter" "alice"
           alice_cached
           {| req_url := "https://twitter.com/alice";
              allow_redirects := false |}
           404).
  - intros t r Hc. vm_compute in Hc. injection Hc as <- _.
    vm_compute. discriminate.
  - reflexivity.
  - reflexivity.
Defined.

(** *** Two calls in a row, and the frame of one call *)

(** C8 (as amended). Two consecutive calls for the same key, the second
    less than a TTL after the first, send at most one request in total
    when the first call returns Available or Taken; and when that
    first call went to the network, the second one returns the same
    result from the cache and changes nothing. *)
Theorem two_calls_one_request net1 net2 now1 now2 platform username w r :
  fst (check_platform net1 now1 platform username w) = Returns (Some r) →
  (now2 - now1 < cache_ttl)%Q →
  (length (sent (snd (check_platform net2 now2 platform username
                        (snd (check_platform net1 now1 platform username w)))))
     ≤ length (sent w) + 1)%nat
  ∧ (sent (snd (check_platform net1 now1 platform username w)) ≠ sent w →
     check_platform net2 now2 platform username
       (snd (check_platform net1 now1 platform username w))
     = (Returns (Some r), snd (check_platform net1 now1 platform username w))).
Proof.
  intros Hfirst Hwindow.
  destruct (check_platform_kind net1 now1 platform username w)
    as [t r1 Hc Ht| | req code Hmiss Hreq Hnet| |]; try discriminate Hfirst.
  - cbn [snd]. split; [|done].
    destruct (check_platform_kind net2 now2 platform username w);
      cbn [snd stored failed requested opened sent];
      rewrite ?length_app; cbn [length]; lia.
  - cbn [fst snd] in *. simplify_eq.
    set (w1 := stored _ _ _ _).
    assert (Hsecond : check_platform net2 now2 platform username w1
                      = (Returns (Some (verdict platform code)), w1)).
    { apply (hit_run _ _ _ _ _ now1); [apply lookup_insert_eq|].
      by apply Qltb_true. }
    rewrite Hsecond. split; [|done].
    subst w1. cbn [snd stored sent]. rewrite length_app. cbn [length]. lia.
Qed.

Lemma two_calls_one_request_witness :
  (length (sent (snd (check_platform times_out 1800 "twitter" "alice"
                        (snd (check_platform (answers 200) 0 "twitter" "alice"
                                fresh_world)))))
     ≤ length (sent fresh_world) + 1)%nat
  ∧ (sent (snd (check_platform (answers 200) 0 "twitter" "alice" fresh_world))
       ≠ sent fresh_world →
     check_platform times_out 1800 "twitter" "alice"
       (snd (check_platform (answers 200) 0 "twitter" "alice" fresh_world))
     = (Returns (Some false),
        snd (check_platform (answers 200) 0 "twitter" "alice" fresh_world))).
Proof.
  apply (two_calls_one_request (answers 200) times_out 0 1800
           "twitter" "alice" fresh_world false); reflexivity.
Defined.

(** C8 (as stated) fails when the first call ends in a transport
    failure: nothing is cached, and the second call, one second later,
    sends a second request. *)
Lemma two_calls_two_requests_after_failure :
  (1 - 0 < cache_ttl)%Q
  ∧ ¬ (length (sent (snd (check_platform times_out 1 "twitter" "alice"
                            (snd (check_platform times_out 0 "twitter" "alice"
                                    fresh_world)))))
       ≤ length (sent fresh_world) + 1)%nat.
Proof. split; [reflexivity|]. vm_compute. lia. Qed.

(** C9. A call leaves the entry of every other key as it was, and sends
    nothing or one request; it sends nothing when it is served from the
    cache. *)
Theorem check_platform_frame net now platform username w :
  (∀ key, key ≠ (platform, username) →
     cache (snd (check_platform net now platform username w)) !! key
     = cache w !! key)
  ∧ (sent (snd (check_platform net now platform username w)) = sent w
     ∨ ∃ req, sent (snd (check_platform net now platform username w))
              = sent w ++ [req])
  ∧ (∀ t r, cache w !! (platform, username) = Some (t, r) →
       (now - t < cache_ttl)%Q →
       sent (snd (check_platform net now platform username w)) = sent w).
Proof.
  split_and!.
  - intros key Hkey.
    destruct (check_platform_kind net now platform username w);
      cbn [snd stored failed requested opened cache]; try done.
    by rewrite lookup_insert_ne.
  - destruct (check_platform_kind net now platform username w);
      cbn [snd stored failed requested opened sent]; eauto.
  - intros t r Hc Hage%Qltb_true.
    by rewrite (hit_run _ _ _ _ _ _ _ Hc Hage).
Qed.

(** *** Platforms outside the table *)

(** C10. For a platform that is not a key of the table (github and
    instagram are keys of it), a call that goes past the cache raises
    [KeyError]: the subscript fails, the handler does not catch it,
    nothing is sent and nothing is cached. *)
Theorem check_platform_unconfigured_raises net now platform username w :
  dict_get platforms platform = None →
  stale_or_absent w now (platform, username) →
  check_platform net now platform username w
    = (Raised (KeyError platform), opened w)
  ∧ transport_error (KeyError platform) = false.
Proof.
  intros Hs Hmiss. split; [|done].
  by rewrite (miss_run _ _ _ _ _ Hmiss), (unconfigured_request _ _ Hs).
Qed.

Lemma check_platform_unconfigured_raises_witness :
  check_platform (answers 404) 0 "myspace" "alice" fresh_world
    = (Raised (KeyError "myspace"), opened fresh_world)
  ∧ transport_error (KeyError "myspace") = false.
Proof.
  apply (check_platform_unconfigured_raises (answers 404) 0 "myspace" "alice"
           fresh_world).
  - reflexivity.
  - apply fresh_world_absent.
Defined.


(** An entry for a platform outside the table is never created, so in
    every world reached from the empty cache the call for such a
    platform goes past the cache and raises. *)
Lemma keys_configured_call w c :
  keys_configured w → keys_configured (run_call w c).
Proof.
  intros Hw. unfold run_call.
  destruct (check_platform_kind (call_net c) (call_now c)
              (call_platform c) (call_username c) w)
    as [| | req code Hmiss Hreq Hnet | |];
    cbn [snd]; try exact Hw.
  intros platform username. cbn [stored cache].
  destruct (decide ((call_platform c, call_username c) = (platform, username)))
    as [Heq|Hne].
  - injection Heq as <- <-. intros _. by eapply request_configured.
  - rewrite lookup_insert_ne by done. apply Hw.
Qed.

Lemma keys_configured_calls calls :
  ∀ w, keys_configured w → keys_configured (run_calls calls w).
Proof.
  induction calls as [|c calls IH]; intros w Hw; [exact Hw|].
  cbn. apply IH. by apply keys_configured_call.
Qed.

Lemma unconfigured_raises_after_history calls net now platform username :
  dict_get platforms platform = None →
  fst (check_platform net now platform username (run_calls calls fresh_world))
  = Raised (KeyError platform).
Proof.
  intros Hs.
  assert (Hinv : keys_configured (run_calls calls fresh_world)).
  { apply keys_configured_calls. intros p u [v Hv]. cbn in Hv.
    by rewrite lookup_empty in Hv. }
  rewrite miss_run, (unconfigured_request _ _ Hs); [done|].
  intros t r Hc. destruct (Hinv platform username) as [spec Hspec]; [by eexists|].
  congruence.
Qed.

(** *** The scenario of the specification

    At time 0 the lookup of alice on twitter goes to the network, is
    Taken, and is cached; at time 1800 it is answered from the cache
    although the transport is down; at time 3601 it goes to the
    network again. *)
Example ttl_scenario :
  let c0 := check_platform (answers 200) 0 "twitter" "alice" fresh_world in
  let c1 := check_platform times_out 1800 "twitter" "alice" (snd c0) in
  let c2 := check_platform (answers 404) 3601 "twitter" "alice" (snd c1) in
  fst c0 = Returns (Some false) ∧ length (sent (snd c0)) = 1%nat
  ∧ fst c1 = Returns (Some false) ∧ length (sent (snd c1)) = 1%nat
  ∧ fst c2 = Returns (Some true) ∧ length (sent (snd c2)) = 2%nat
  ∧ cache (snd c2) !! ("twitter", "alice") = Some (3601%Q, true).
Proof. vm_compute. repeat split. Qed.

End CheckPlatform.

(** ** More about one call and about histories of calls *)

Module CacheProps.
Import SearchBot SearchCog CheckPlatform.

(** X1. An exception of the transport that is neither a [ClientError] nor
    a [TimeoutError] is not caught: it leaves [check_platform] as it
    came, after the request has gone out, and neither the cache nor the
    log is written. *)
Theorem check_platform_other_exception_escapes
    net now platform username w req e :
  stale_or_absent w now (platform, username) →
  request_for platform username = Some req →
  net req = Raises e →
  transport_error e = false →
  fst (check_platform net now platform username w) = Raised e
  ∧ sent (snd (check_platform net now platform username w)) = sent w ++ [req]
  ∧ cache (snd (check_platform net now platform username w)) = cache w
  ∧ logged (snd (check_platform net now platform username w)) = logged w.
Proof.
  intros Hmiss Hreq Hnet He.
  by rewrite (miss_run _ _ _ _ _ Hmiss), Hreq, Hnet, He.
Qed.

Lemma check_platform_other_exception_escapes_witness :
  fst (check_platform (λ _, Raises (OtherException "boom")) 0
         "github" "alice" fresh_world) = Raised (OtherException "boom")
  ∧ sent (snd (check_platform (λ _, Raises (OtherException "boom")) 0
                 "github" "alice" fresh_world))
    = sent fresh_world ++ [{| req_url := "https://api.github.com/users/alice";
                              allow_redirects := true |}]
  ∧ cache (snd (check_platform (λ _, Raises (OtherException "boom")) 0
                  "github" "alice" fresh_world)) = cache fresh_world
  ∧ logged (snd (check_platform (λ _, Raises (OtherException "boom")) 0
                   "github" "alice" fresh_world)) = logged fresh_world.
Proof.
  apply (check_platform_other_exception_escapes _ 0 "github" "alice"
           fresh_world _ (OtherException "boom")).
  - apply fresh_world_absent.
  - reflexivity.
  - reflexivity.
  - reflexivity.
Defined.


(** X3. Nothing is ever evicted: a key that has an entry before a call
    has one after it. *)
Theorem check_platform_never_evicts net now platform username w key :
  is_Some (cache w !! key) →
  is_Some (cache (snd (check_platform net now platform username w)) !! key).
Proof.
  intros Hkey.
  destruct (check_platform_kind net now platform username w);
    cbn [snd stored failed requested opened cache]; try done.
  destruct (decide ((platform, username) = key)) as [<-|Hne].
  - rewrite lookup_insert_eq. by eexists.
  - by rewrite lookup_insert_ne.
Qed.

Lemma check_platform_never_evicts_witness :
  is_Some (cache (snd (check_platform (answers 404) 7200 "github" "bob"
                         alice_cached)) !! ("twitter", "alice")).
Proof.
  apply (check_platform_never_evicts (answers 404) 7200 "github" "bob"
           alice_cached ("twitter", "alice")).
  by eexists.
Defined.

(** X4. A failure is retried: when a call has returned [None] and the
    clock has not gone back, the next call for the same key sends the
    same request again. *)
Theorem check_platform_retries_after_failure
    net1 net2 now1 now2 platform username w :
  fst (check_platform net1 now1 platform username w) = Returns None →
  (now1 <= now2)%Q →
  ∃ req,
    request_for platform username = Some req
    ∧ sent (snd (check_platform net1 now1 platform username w)) = sent w ++ [req]
    ∧ sent (snd (check_platform net2 now2 platform username
                   (snd (check_platform net1 now1 platform username w))))
      = sent w ++ [req; req].
Proof.
  intros Hfirst Hclock.
  destruct (check_platform_kind net1 now1 platform username w)
    as [| | | req e Hmiss Hreq Hnet He |]; try discriminate Hfirst.
  exists req. cbn [snd]. split_and!; [done..|].
  rewrite miss_run, Hreq.
  - cbn [failed]. destruct (net2 req) as [code|e2];
      [|destruct (transport_error e2)];
      cbn [snd stored failed requested sent]; by rewrite <- app_assoc.
  - intros t r Hc. cbn [failed cache] in Hc.
    specialize (Hmiss t r Hc). unfold cache_ttl in *.
    unfold Qminus in *. lra.
Qed.

Lemma check_platform_retries_after_failure_witness :
  ∃ req,
    request_for "reddit" "alice" = Some req
    ∧ sent (snd (check_platform times_out 0 "reddit" "alice" fresh_world))
      = sent fresh_world ++ [req]
    ∧ sent (snd (check_platform (answers 200) 0 "reddit" "alice"
                   (snd (check_platform times_out 0 "reddit" "alice"
                           fresh_world))))
      = sent fresh_world ++ [req; req].
Proof.
  apply (check_platform_retries_after_failure times_out (answers 200) 0 0
           "reddit" "alice" fresh_world).
  - reflexivity.
  - vm_compute. discriminate.
Defined.

(** X5. On a platform of the table, and with a transport that raises
    nothing but [ClientError] and [TimeoutError], a call never raises;
    and it returns the error result [None] only when its request was
    answered by an exception, never for a response, whatever its
    status. *)
Theorem check_platform_on_table_returns net now platform username w :
  configured platform →
  (∀ req e, net req = Raises e → transport_error e = true) →
  ∃ result,
    fst (check_platform net now platform username w) = Returns result
    ∧ (result = None →
       ∃ req e, request_for platform username = Some req
                ∧ net req = Raises e).
Proof.
  intros Hp Hnet.
  destruct (check_platform_kind net now platform username w)
    as [t r Hc Ht | Hmiss Hreq | req code Hmiss Hreq Hcode
        | req e Hmiss Hreq Hraises He | req e Hmiss Hreq Hraises He];
    cbn [fst].
  - by exists (Some r).
  - destruct (configured_request platform username Hp) as [req Hsome].
    congruence.
  - by exists (Some (verdict platform code)).
  - exists None. split; [done|]. intros _. by exists req, e.
  - rewrite (Hnet _ _ Hraises) in He. discriminate.
Qed.

Lemma check_platform_on_table_returns_witness :
  ∃ result,
    fst (check_platform times_out 0 "linkedin" "alice" fresh_world)
    = Returns result
    ∧ (result = None →
       ∃ req e, request_for "linkedin" "alice" = Some req
                ∧ times_out req = Raises e).
Proof.
  apply (check_platform_on_table_returns times_out 0 "linkedin" "alice"
           fresh_world).
  - by eexists.
  - intros req e [= <-]. reflexivity.
Defined.

(** X6. No entry is ever made for a platform outside the table: after
    any history of calls that starts from the empty cache, a call for
    such a platform raises [KeyError], sends nothing and caches
    nothing. *)
Theorem unconfigured_platform_always_raises calls net now platform username :
  dict_get platforms platform = None →
  check_platform net now platform username (run_calls calls fresh_world)
  = (Raised (KeyError platform), opened (run_calls calls fresh_world)).
Proof.
  intros Hs.
  assert (Hinv : keys_configured (run_calls calls fresh_world)).
  { apply keys_configured_calls. intros p u [v Hv]. cbn in Hv.
    by rewrite lookup_empty in Hv. }
  rewrite miss_run, (unconfigured_request _ _ Hs); [done|].
  intros t r Hc.
  destruct (Hinv platform username) as [spec Hspec]; [by eexists|].
  congruence.
Qed.

Lemma unconfigured_platform_always_raises_witness :
  check_platform (answers 200) 10 "myspace" "alice"
    (run_calls [ {| call_net := answers 200; call_now := 0;
                    call_platform := "twitter"; call_username := "alice" |};
                 {| call_net := times_out; call_now := 5;
                    call_platform := "myspace"; call_username := "alice" |} ]
       fresh_world)
  = (Raised (KeyError "myspace"),
     opened (run_calls
               [ {| call_net := answers 200; call_now := 0;
                    call_platform := "twitter"; call_username := "alice" |};
                 {| call_net := times_out; call_now := 5;
                    call_platform := "myspace"; call_username := "alice" |} ]
               fresh_world)).
Proof.
  apply (unconfigured_platform_always_raises
           [ {| call_net := answers 200; call_now := 0;
                call_platform := "twitter"; call_username := "alice" |};
             {| call_net := times_out; call_now := 5;
                call_platform := "myspace"; call_username := "alice" |} ]
           (answers 200) 10 "myspace" "alice").
  reflexivity.
Defined.

End CacheProps.

(** ** Properties of the commands *)

Module CommandProps.
Import SearchBot SearchCog CheckPlatform PyStr Discord Commands.

(** *** Dicts *)

Lemma dict_get_set_eq {V} (d : list (string * V)) key v :
  dict_get (dict_set d key v) key = Some v.
Proof.
  induction d as [|[k x] d IH]; cbn.
  - by rewrite String.eqb_refl.
  - destruct (String.eqb k key) eqn:Hk; cbn; by rewrite Hk.
Qed.

Lemma dict_get_set_ne {V} (d : list (string * V)) key key' v :
  key ≠ key' → dict_get (dict_set d key v) key' = dict_get d key'.
Proof.
  intros Hne. induction d as [|[k x] d IH]; cbn.
  - by apply String.eqb_neq in Hne as ->.
  - destruct (String.eqb k key) eqn:Hk; cbn; [|by rewrite IH].
    apply String.eqb_eq in Hk as ->.
    by apply String.eqb_neq in Hne as ->.
Qed.

Lemma dict_get_set_is_Some {V} (d : list (string * V)) key key' v :
  key = key' ∨ is_Some (dict_get d key') →
  is_Some (dict_get (dict_set d key v) key').
Proof.
  destruct (decide (key = key')) as [<-|Hne].
  - intros _. rewrite dict_get_set_eq. by eexists.
  - intros [?|?]; [done|]. by rewrite dict_get_set_ne.
Qed.

(** *** The lookups of [username_check] *)

Lemma lift_run {A} (m : Py A) rt :
  lift m rt = (fst (m (world rt)),
               {| world := snd (m (world rt)); search_count := search_count rt;
                  start_time := start_time rt; replies := replies rt |}).
Proof. reflexivity. Qed.

Lemma check_all_cons net clock username platform keys results rt :
  check_all net clock username (platform :: keys) results rt =
    match lift (check_platform (net platform) (clock platform)
                  platform username) rt with
    | (Returns available, rt') =>
        check_all net clock username keys
          (dict_set results platform available) rt'
    | (Raised e, rt') => (Raised e, rt')
    end.
Proof. reflexivity. Qed.

(** The lookups touch the world of the bot and nothing else of it. *)
Lemma check_all_same_bot net clock username keys :
  ∀ results rt,
    same_bot rt (snd (check_all net clock username keys results rt)).
Proof.
  induction keys as [|platform keys IH]; intros results rt; [done|].
  rewrite check_all_cons, lift_run.
  destruct (fst _); [|done].
  destruct (IH (dict_set results platform a)
              {| world := snd (check_platform (net platform) (clock platform)
                                 platform username (world rt));
                 search_count := search_count rt;
                 start_time := start_time rt; replies := replies rt |})
    as (Hc & Ht & Hr).
  by split_and!.
Qed.

Lemma check_all_sent_bound net clock username keys :
  ∀ results rt,
    (length (sent (world (snd (check_all net clock username keys results rt))))
     ≤ length (sent (world rt)) + length keys)%nat.
Proof.
  induction keys as [|platform keys IH]; intros results rt; cbn [length].
  { cbn. lia. }
  rewrite check_all_cons, lift_run.
  pose proof (check_platform_kind (net platform) (clock platform)
                platform username (world rt)) as Hkind.
  assert (Hone : (length (sent (snd (check_platform (net platform)
                     (clock platform) platform username (world rt))))
                  ≤ length (sent (world rt)) + 1)%nat).
  { destruct Hkind; cbn [snd stored failed requested opened sent];
      rewrite ?length_app; cbn [length]; lia. }
  destruct (fst _).
  - etrans; [apply IH|]. cbn [world]. lia.
  - cbn [snd world]. lia.
Qed.

(** What the lookups return holds a result for every key looked up. *)
Lemma check_all_keys net clock username keys :
  ∀ results rt results' rt',
    check_all net clock username keys results rt = (Returns results', rt') →
    ∀ platform, platform ∈ keys ∨ is_Some (dict_get results platform) →
                is_Some (dict_get results' platform).
Proof.
  induction keys as [|key keys IH]; intros results rt results' rt' Hrun platform.
  { cbn in Hrun. injection Hrun as <- <-. intros [Hin|?]; [|done].
    by apply elem_of_nil in Hin. }
  rewrite check_all_cons, lift_run in Hrun.
  destruct (fst _) as [available|e]; [|discriminate].
  intros Hp. eapply IH; [exact Hrun|].
  destruct Hp as [Hin|Hsome].
  - apply elem_of_cons in Hin as [->|Hin]; [|by left].
    right. rewrite dict_get_set_eq. by eexists.
  - right. apply dict_get_set_is_Some. by right.
Qed.


Lemma platforms_configured : Forall configured (map fst platforms).
Proof. repeat constructor; by eexists. Qed.

(** *** The replies of [username_check] *)

Lemma preamble_run fullmatch username rt :
  (count_search ;;
   reply Defer ;;
   match invalid_platforms fullmatch username with
   | [] => mret tt
   | _ => reply (SendText ("⚠️ Username doesn't meet requirements for: "
                           +:+ title (String.concat ", "
                                        (invalid_platforms fullmatch username))))
   end) rt = (Returns tt, started fullmatch username rt).
Proof.
  unfold started, warning.
  generalize (invalid_platforms fullmatch username). intros invalid.
  unfold mbind, Cmd_bind, count_search, reply.
  destruct invalid; cbn.
  - reflexivity.
  - by rewrite <- app_assoc.
Qed.

Lemma add_results_run results username chunk :
  Forall (λ p, is_Some (dict_get results p) ∧ is_Some (dict_get platforms p))
    chunk →
  ∀ embed rt,
    add_results results username chunk embed rt =
      (Returns {| embed_title := embed_title embed;
                  embed_description := embed_description embed;
                  embed_colour := embed_colour embed;
                  embed_fields := embed_fields embed
                    ++ map (result_field results username) chunk;
                  embed_footer := embed_footer embed |}, rt).
Proof.
  induction 1 as [|p chunk [[r Hr] [spec Hs]] _ IH]; intros embed rt.
  - cbn. rewrite app_nil_r. by destruct embed.
  - cbn [add_results]. unfold mbind, Cmd_bind, dict_getitem.
    rewrite Hr, Hs. cbn. rewrite IH. cbn.
    unfold result_field at 2. rewrite Hr, Hs. cbn. by rewrite <- app_assoc.
Qed.

(** After the lookups: with nine platforms and chunks of six, the loop
    over the chunks runs for [i = 0] and [i = 6]. *)
Lemma chunks_run results username rt :
  (∀ platform, platform ∈ map fst platforms →
               is_Some (dict_get results platform)) →
  (embed ← send_chunks results username (map fst platforms)
             (range_step (length (map fst platforms)) chunk_size)
             (new_embed (Some ("Username Availability: " +:+ username))
                None green);
   reply (SendEmbed embed)) rt
  = (Returns tt,
     replied [SendEmbed (chunk_embed results username
                           ["twitch"; "tiktok"; "reddit"]);
              SendEmbed (chunk_embed results username
                           ["twitch"; "tiktok"; "reddit"])] rt).
Proof.
  intros Hresults.
  assert (Hall : Forall (λ p, is_Some (dict_get results p)
                              ∧ is_Some (dict_get platforms p))
                   (map fst platforms)).
  { apply Forall_forall. intros p Hp. split; [by apply Hresults|].
    revert p Hp. apply Forall_forall, platforms_configured. }
  change (range_step (length (map fst platforms)) chunk_size) with [0; 6]%nat.
  cbn [send_chunks Nat.ltb Nat.leb].
  change (take chunk_size (drop 0 (map fst platforms)))
    with ["facebook"; "twitter"; "instagram"; "linkedin"; "github"; "youtube"].
  change (take chunk_size (drop 6 (map fst platforms)))
    with ["twitch"; "tiktok"; "reddit"].
  unfold mbind, Cmd_bind, mret, Cmd_ret.
  rewrite (add_results_run results username
             ["facebook"; "twitter"; "instagram"; "linkedin"; "github"; "youtube"])
    by exact (Forall_take _ 6 _ Hall).
  rewrite (add_results_run results username ["twitch"; "tiktok"; "reddit"])
    by exact (Forall_drop _ 6 _ Hall).
  unfold reply, replied, chunk_embed. cbn [new_embed embed_title
    embed_description embed_colour embed_fields embed_footer app
    world search_count start_time replies].
  by rewrite <- app_assoc.
Qed.

(** The whole command: the preamble, the lookups, and then, when they
    have all returned, the embed of the last chunk sent twice. *)
Lemma username_check_run fullmatch net clock username rt :
  username_check fullmatch net clock username rt =
    match check_all net clock username (map fst platforms) []
            (started fullmatch username rt) with
    | (Returns results, rt') =>
        (Returns tt,
         replied [SendEmbed (chunk_embed results username
                               ["twitch"; "tiktok"; "reddit"]);
                  SendEmbed (chunk_embed results username
                               ["twitch"; "tiktok"; "reddit"])] rt')
    | (Raised e, rt') => (Raised e, rt')
    end.
Proof.
  unfold username_check.
  unfold mbind at 1 2 3 4. unfold Cmd_bind at 1 2 3 4.
  unfold count_search at 1. cbv beta iota.
  unfold reply at 1. cbv beta iota.
  unfold started, warning.
  generalize (invalid_platforms fullmatch username). intros invalid.
  destruct invalid as [|p invalid].
  - unfold mret at 1. unfold Cmd_ret at 1. cbv beta iota.
    cbn [world search_count start_time replies app].
    destruct (check_all _ _ _ _ _ _) as [[results|e] rt'] eqn:Hrun; [|done].
    apply chunks_run. intros platform Hp.
    eapply check_all_keys; [exact Hrun|by left].
  - unfold reply at 1. cbv beta iota.
    cbn [world search_count start_time replies].
    rewrite <- app_assoc.
    destruct (check_all _ _ _ _ _ _) as [[results|e] rt'] eqn:Hrun; [|done].
    apply chunks_run. intros platform Hp.
    eapply check_all_keys; [exact Hrun|by left].
Qed.

(** The lookups see the world of the bot and nothing else of it. *)
Lemma check_all_world net clock username keys :
  ∀ results rt1 rt2,
    world rt1 = world rt2 →
    fst (check_all net clock username keys results rt1)
    = fst (check_all net clock username keys results rt2)
    ∧ world (snd (check_all net clock username keys results rt1))
      = world (snd (check_all net clock username keys results rt2)).
Proof.
  induction keys as [|platform keys IH]; intros results rt1 rt2 Hw;
    [by cbn|].
  rewrite !check_all_cons, !lift_run, Hw.
  destruct (fst (check_platform _ _ _ _ _)); [|done]. by apply IH.
Qed.



(** X8. What a [username_check] that returns has said: it defers, warns
    when some pattern does not match, and then sends one and the same
    embed twice, the untitled one with the fields of Twitch, Tiktok and
    Reddit.  The embed titled [Username Availability: <username>] that
    holds the six other platforms is not sent. *)
Theorem username_check_replies fullmatch net clock username rt :
  fst (username_check fullmatch net clock username rt) = Returns tt →
  ∃ e,
    replies (snd (username_check fullmatch net clock username rt))
    = replies rt ++ [Defer] ++ warning fullmatch username
        ++ [SendEmbed e; SendEmbed e]
    ∧ embed_title e = None
    ∧ map field_name (embed_fields e) = ["Twitch"; "Tiktok"; "Reddit"].
Proof.
  rewrite username_check_run.
  pose proof (check_all_same_bot net clock username (map fst platforms) []
                (started fullmatch username rt)) as (_ & _ & Hreplies).
  destruct (check_all _ _ _ _ _ _) as [[results|e] rt']; [|discriminate].
  intros _. exists (chunk_embed results username ["twitch"; "tiktok"; "reddit"]).
  cbn [snd replied replies] in *. rewrite Hreplies. cbn [started replies].
  split_and!; [|done..]. by rewrite <- !app_assoc.
Qed.

Lemma username_check_replies_witness :
  ∃ e,
    replies (snd (username_check (λ _ _, true) (λ _, answers 404) (λ _, 0%Q)
                    "alice" (init 0)))
    = replies (init 0) ++ [Defer] ++ warning (λ _ _, true) "alice"
        ++ [SendEmbed e; SendEmbed e]
    ∧ embed_title e = None
    ∧ map field_name (embed_fields e) = ["Twitch"; "Tiktok"; "Reddit"].
Proof.
  apply (username_check_replies (λ _ _, true) (λ _, answers 404) (λ _, 0%Q)
           "alice" (init 0)).
  reflexivity.
Defined.



(** X10. One [username_check] sends at most nine requests, one for each
    platform of the table. *)
Theorem username_check_sends_at_most_nine fullmatch net clock username rt :
  (length (sent (world (snd (username_check fullmatch net clock username rt))))
   ≤ length (sent (world rt)) + 9)%nat.
Proof.
  rewrite username_check_run.
  pose proof (check_all_sent_bound net clock username (map fst platforms) []
                (started fullmatch username rt)) as Hbound.
  destruct (check_all _ _ _ _ _ _) as [[results|e] rt']; exact Hbound.
Qed.

(** X11. The validation of the username is advisory: whether the patterns
    match or not, the lookups are the same, so the outcome of the
    command, the cache, the requests sent and the log do not depend on
    it. *)
Theorem username_check_validation_is_advisory
    fullmatch1 fullmatch2 net clock username rt :
  fst (username_check fullmatch1 net clock username rt)
  = fst (username_check fullmatch2 net clock username rt)
  ∧ world (snd (username_check fullmatch1 net clock username rt))
    = world (snd (username_check fullmatch2 net clock username rt)).
Proof.
  rewrite !username_check_run.
  destruct (check_all_world net clock username (map fst platforms) []
              (started fullmatch1 username rt)
              (started fullmatch2 username rt) eq_refl) as [Hfst Hworld].
  destruct (check_all _ _ _ _ _ (started fullmatch1 username rt))
    as [[results1|e1] rt1];
    destruct (check_all _ _ _ _ _ (started fullmatch2 username rt))
      as [[results2|e2] rt2]; cbn [fst snd replied world] in *;
    try discriminate Hfst; (split; [congruence|exact Hworld]).
Qed.

(** *** Two [username_check] in a row *)

Lemma username_check_world fullmatch net clock username rt :
  world (snd (username_check fullmatch net clock username rt))
  = world (snd (check_all net clock username (map fst platforms) [] rt)).
Proof.
  rewrite username_check_run.
  destruct (check_all_world net clock username (map fst platforms) []
              (started fullmatch username rt) rt eq_refl) as [_ <-].
  by destruct (check_all _ _ _ _ _ _) as [[results|e] rt'].
Qed.

(** When the transport answers every request, the lookups leave, for
    every key looked up, an entry stamped with the clock reading of its
    lookup, provided the entries of the username that were there before
    are stamped so. *)
Lemma check_all_stamps net clock username keys :
  Forall configured keys →
  (∀ platform req, ∃ code, net platform req = Status code) →
  ∀ results rt,
    (∀ p, cache (world rt) !! (p, username) = None
          ∨ ∃ r, cache (world rt) !! (p, username) = Some (clock p, r)) →
    (∀ p, cache (world (snd (check_all net clock username keys results rt)))
            !! (p, username) = None
          ∨ ∃ r, cache (world (snd (check_all net clock username keys
                                      results rt)))
                   !! (p, username) = Some (clock p, r))
    ∧ ∀ p, p ∈ keys ∨ is_Some (cache (world rt) !! (p, username)) →
           ∃ r, cache (world (snd (check_all net clock username keys
                                     results rt)))
                  !! (p, username) = Some (clock p, r).
Proof.
  intros Hkeys Hnet.
  induction Hkeys as [|platform keys Hp _ IH]; intros results rt Hinv.
  { cbn. split; [done|]. intros p [Hin|[v Hv]].
    - by apply elem_of_nil in Hin.
    - destruct (Hinv p) as [Hnone|?]; [congruence|done]. }
  rewrite check_all_cons, lift_run.
  set (call := check_platform (net platform) (clock platform)
                 platform username (world rt)).
  assert (Hcall : ∃ r,
    fst call = Returns (Some r)
    ∧ cache (snd call) !! (platform, username) = Some (clock platform, r)
    ∧ ∀ p, p ≠ platform →
           cache (snd call) !! (p, username)
           = cache (world rt) !! (p, username)).
  { subst call. destruct (Hinv platform) as [Hnone|[r Hsome]].
    - destruct (configured_request platform username Hp) as [req Hreq].
      destruct (Hnet platform req) as [code Hcode].
      rewrite miss_run, Hreq, Hcode by (intros t r Hc; congruence).
      exists (verdict platform code). cbn [fst snd stored cache].
      split_and!; [done|apply lookup_insert_eq|].
      intros p Hne. apply lookup_insert_ne. congruence.
    - rewrite (hit_run _ _ _ _ _ _ _ Hsome).
      + exists r. by split_and!.
      + apply Qltb_true. unfold cache_ttl, Qminus. lra. }
  destruct Hcall as (r & -> & Hnew & Hother).
  set (rt1 := {| world := snd call |}).
  assert (Hinv1 : ∀ p, cache (world rt1) !! (p, username) = None
                       ∨ ∃ r, cache (world rt1) !! (p, username)
                              = Some (clock p, r)).
  { intros p. cbn [rt1 world]. destruct (decide (p = platform)) as [->|Hne].
    - right. by exists r.
    - rewrite (Hother p Hne). apply Hinv. }
  destruct (IH (dict_set results platform (Some r)) rt1 Hinv1) as [Hinv' Hdone].
  split; [exact Hinv'|].
  intros p Hp'. apply Hdone.
  destruct (decide (p = platform)) as [->|Hne].
  - right. cbn [rt1 world]. rewrite Hnew. by eexists.
  - destruct Hp' as [Hin|Hsome].
    + apply elem_of_cons in Hin as [?|Hin]; [done|by left].
    + right. cbn [rt1 world]. by rewrite (Hother p Hne).
Qed.

(** When every key has an entry that is young enough at the clock
    reading of its lookup, the lookups return and leave the world as it
    is. *)
Lemma check_all_served net clock username keys :
  ∀ results rt,
    (∀ p, p ∈ keys →
          ∃ t r, cache (world rt) !! (p, username) = Some (t, r)
                 ∧ (clock p - t < cache_ttl)%Q) →
    world (snd (check_all net clock username keys results rt)) = world rt.
Proof.
  induction keys as [|platform keys IH]; intros results rt Hfresh; [done|].
  rewrite check_all_cons, lift_run.
  destruct (Hfresh platform) as (t & r & Hc & Hage); [by left|].
  apply Qltb_true in Hage.
  rewrite (hit_run _ _ _ _ _ _ _ Hc Hage). cbn [fst snd].
  rewrite IH; [done|].
  intros p Hp. cbn [world]. apply Hfresh. by right.
Qed.

(** X12. A second [username_check] of the same username, each of its
    lookups less than a TTL after the one of the first command, sends
    no request and leaves the cache as it is, when the first command
    found nothing cached for the username and had all its requests
    answered. *)
Theorem username_check_repeat_is_served
    fullmatch1 fullmatch2 net1 net2 clock1 clock2 username rt :
  (∀ platform, cache (world rt) !! (platform, username) = None) →
  (∀ platform req, ∃ code, net1 platform req = Status code) →
  (∀ platform, (clock2 platform - clock1 platform < cache_ttl)%Q) →
  world (snd (username_check fullmatch2 net2 clock2 username
                (snd (username_check fullmatch1 net1 clock1 username rt))))
  = world (snd (username_check fullmatch1 net1 clock1 username rt)).
Proof.
  intros Hempty Hnet Hclock.
  rewrite (username_check_world fullmatch2).
  apply check_all_served. intros p Hp.
  rewrite username_check_world.
  destruct (check_all_stamps net1 clock1 username (map fst platforms)
              platforms_configured Hnet [] rt) as [_ Hdone].
  { intros q. left. apply Hempty. }
  destruct (Hdone p) as [r Hr]; [by left|].
  exists (clock1 p), r. split; [exact Hr|apply Hclock].
Qed.

Lemma username_check_repeat_is_served_witness :
  world (snd (username_check (λ _ _, true) (λ _, times_out) (λ _, 1800%Q) "alice"
                (snd (username_check (λ _ _, true) (λ _, answers 200)
                        (λ _, 0%Q) "alice" (init 0)))))
  = world (snd (username_check (λ _ _, true) (λ _, answers 200)
                  (λ _, 0%Q) "alice" (init 0))).
Proof.
  apply (username_check_repeat_is_served (λ _ _, true) (λ _ _, true)
           (λ _, answers 200) (λ _, times_out) (λ _, 0%Q) (λ _, 1800%Q)
           "alice" (init 0)).
  - intros platform. reflexivity.
  - intros platform req. exists 200%Z. reflexivity.
  - intros platform. reflexivity.
Defined.

(** *** [name_search]: the links *)

Lemma occurs_app c s1 s2 :
  occurs c (s1 +:+ s2) = occurs c s1 || occurs c s2.
Proof.
  induction s1 as [|c1 s1 IH]; simpl; [done|]. by rewrite IH, orb_assoc.
Qed.

(** After [s.replace(old, new)] no [old] is left, unless [new] brings
    one. *)
Lemma occurs_replace old new s :
  occurs old new = false → occurs old (replace old new s) = false.
Proof.
  intros Hnew. induction s as [|c s IH]; [done|].
  cbn [replace]. destruct (Ascii.eqb c old) eqn:Hc.
  - by rewrite occurs_app, Hnew, IH.
  - cbn [occurs]. by rewrite Hc, IH.
Qed.

(** X13. No link of a [name_search] reply has a space in it, whatever
    the name: the reply is one embed, and each of its ten fields is a
    label followed by a target in brackets that is free of spaces. *)
Theorem name_search_links_have_no_space name rt :
  ∃ e,
    replies (snd (name_search name rt)) = replies rt ++ [Defer; SendEmbed e]
    ∧ length (embed_fields e) = 10%nat
    ∧ Forall (λ f, ∃ label target,
                field_value f = label +:+ "(" +:+ target +:+ ")"
                ∧ (label = "[Search on Google]" ∨ label = "[View Profile]")
                ∧ occurs " " target = false)
        (embed_fields e).
Proof.
  eexists. split_and!.
  - unfold name_search, mbind, Cmd_bind, count_search, reply.
    cbn [replies]. by rewrite <- app_assoc.
  - reflexivity.
  - pose proof (occurs_replace " " "+" name eq_refl) as Hplus.
    pose proof (occurs_replace " " "" name eq_refl) as Hnone.
    cbn [add_profile_links platforms add_field new_embed embed_fields
         embed_title embed_description embed_colour embed_footer app url].
    repeat constructor.
    + exists "[Search on Google]",
        ("https://www.google.com/search?q=" +:+ replace " " "+" name).
      split_and!; [done|by left|]. by rewrite occurs_app, Hplus.
    + exists "[View Profile]", ("https://facebook.com/" +:+ replace " " "" name).
      split_and!; [done|by right|]. by rewrite occurs_app, Hnone.
    + exists "[View Profile]", ("https://twitter.com/" +:+ replace " " "" name).
      split_and!; [done|by right|]. by rewrite occurs_app, Hnone.
    + exists "[View Profile]", ("https://instagram.com/" +:+ replace " " "" name).
      split_and!; [done|by right|]. by rewrite occurs_app, Hnone.
    + exists "[View Profile]", ("https://linkedin.com/in/" +:+ replace " " "" name).
      split_and!; [done|by right|]. by rewrite occurs_app, Hnone.
    + exists "[View Profile]", ("https://github.com/" +:+ replace " " "" name).
      split_and!; [done|by right|]. by rewrite occurs_app, Hnone.
    + exists "[View Profile]", ("https://youtube.com/@" +:+ replace " " "" name).
      split_and!; [done|by right|]. by rewrite occurs_app, Hnone.
    + exists "[View Profile]", ("https://twitch.tv/" +:+ replace " " "" name).
      split_and!; [done|by right|]. by rewrite occurs_app, Hnone.
    + exists "[View Profile]", ("https://tiktok.com/@" +:+ replace " " "" name).
      split_and!; [done|by right|]. by rewrite occurs_app, Hnone.
    + exists "[View Profile]", ("https://reddit.com/user/" +:+ replace " " "" name).
      split_and!; [done|by right|]. by rewrite occurs_app, Hnone.
Qed.

(** *** The counter of searches and [show_stats] *)

Lemma run_command_search_count rt c :
  search_count (run_command rt c)
  = (search_count rt + if is_search c then 1 else 0)%nat.
Proof.
  destruct c as [name|fullmatch net clock username|guilds now|]; cbn [is_search].
  - unfold run_command, name_search, mbind, Cmd_bind, count_search, reply.
    cbn [snd search_count]. lia.
  - unfold run_command. rewrite username_check_run.
    pose proof (check_all_same_bot net clock username (map fst platforms) []
                  (started fullmatch username rt)) as (Hcount & _ & _).
    destruct (check_all _ _ _ _ _ _) as [[results|e] rt'];
      cbn [snd replied search_count started] in *; lia.
  - unfold run_command, show_stats, reply. cbn [snd search_count]. lia.
  - unfold run_command, show_help, reply. cbn [snd search_count]. lia.
Qed.

Lemma run_commands_search_count cs :
  ∀ rt, search_count (run_commands cs rt)
        = (search_count rt + length (List.filter is_search cs))%nat.
Proof.
  induction cs as [|c cs IH]; intros rt; cbn [run_commands fold_left].
  { cbn. lia. }
  change (fold_left run_command cs (run_command rt c))
    with (run_commands cs (run_command rt c)).
  rewrite IH, run_command_search_count. cbn [List.filter].
  destruct (is_search c); cbn [length]; lia.
Qed.

(** X14. The counter counts the searches: after any history of commands
    on a new bot, [search_count] is the number of [name_search] and
    [username_check] commands run, those that raised included, and a
    [show_stats] that follows replies with one embed whose first field
    shows that number. *)
Theorem stats_shows_number_of_searches cs created guilds now :
  search_count (run_commands cs (init created))
  = length (List.filter is_search cs)
  ∧ ∃ e,
      replies (run_commands (cs ++ [Stats guilds now]) (init created))
      = replies (run_commands cs (init created)) ++ [SendEmbed e]
      ∧ embed_fields e !! 0%nat
        = Some {| field_name := "Total Searches";
                  field_value := pretty (length (List.filter is_search cs));
                  field_inline := true |}.
Proof.
  pose proof (run_commands_search_count cs (init created)) as Hcount.
  cbn [init search_count Nat.add] in Hcount. split; [exact Hcount|].
  unfold run_commands in *. rewrite fold_left_app. cbn [fold_left].
  unfold run_command at 1. unfold show_stats, reply. cbn [snd replies].
  eexists. split; [reflexivity|]. cbn. by rewrite Hcount.
Qed.

(** *** The uptime of [show_stats] *)

Lemma occurs_pretty_N_go c x :
  (∀ d, pretty_N_char d ≠ c) →
  ∀ s, occurs c s = false → occurs c (pretty_N_go x s) = false.
Proof.
  intros Hc. induction (N.lt_wf_0 x) as [x _ IH]; intros s Hs.
  destruct (decide (x = 0)%N) as [->|Hx]; [by rewrite pretty_N_go_0|].
  rewrite pretty_N_go_step by lia. apply IH.
  - apply N.div_lt; lia.
  - cbn [occurs]. rewrite Hs, orb_false_r. apply Ascii.eqb_neq, Hc.
Qed.

Lemma no_digit_is_dot d : pretty_N_char d ≠ "."%char.
Proof. unfold pretty_N_char. by repeat case_match. Qed.

Lemma occurs_dot_pretty_N (x : N) : occurs "." (pretty x) = false.
Proof.
  unfold pretty, pretty_N. case_decide; [done|].
  by apply occurs_pretty_N_go; [apply no_digit_is_dot|].
Qed.

Lemma occurs_dot_pretty_Z (x : Z) : occurs "." (pretty x) = false.
Proof.
  destruct x as [|p|p]; unfold pretty, pretty_Z, pretty_positive; [done|..].
  - apply occurs_dot_pretty_N.
  - rewrite occurs_app. cbn [occurs Ascii.eqb Bool.eqb orb].
    apply occurs_dot_pretty_N.
Qed.

Lemma occurs_dot_zero_padded width n : occurs "." (zero_padded width n) = false.
Proof.
  unfold zero_padded. rewrite occurs_app, occurs_dot_pretty_Z, orb_false_r.
  induction (width - String.length (pretty n))%nat as [|k IH]; [done|].
  cbn [zeros occurs]. by rewrite IH.
Qed.

Lemma before_no_sep sep s : occurs sep s = false → before sep s = s.
Proof.
  induction s as [|c s IH]; [done|]. cbn [occurs before].
  intros [Hc Hs]%orb_false_iff. by rewrite Hc, IH.
Qed.

Lemma before_app_sep sep s rest :
  occurs sep s = false → before sep (s +:+ String sep rest) = s.
Proof.
  induction s as [|c s IH]; simpl.
  - intros _. by rewrite Ascii.eqb_refl.
  - intros [Hc Hs]%orb_false_iff. by rewrite Hc, IH.
Qed.

Lemma occurs_dot_timedelta_str days seconds :
  occurs "." (timedelta_str days seconds 0) = false.
Proof.
  unfold timedelta_str. cbn [Z.eqb].
  destruct (days =? 0)%Z; [|destruct (Z.abs days =? 1)%Z];
    rewrite ?occurs_app, ?occurs_dot_pretty_Z, ?occurs_dot_zero_padded; done.
Qed.

Lemma timedelta_str_microseconds days seconds microseconds :
  microseconds ≠ 0%Z →
  timedelta_str days seconds microseconds
  = timedelta_str days seconds 0 +:+ "." +:+ zero_padded 6 microseconds.
Proof.
  intros Hm%Z.eqb_neq. unfold timedelta_str. rewrite Hm. by cbn [Z.eqb].
Qed.

(** X15. [show_stats] shows the uptime in whole seconds: the second
    field of its embed is the text of the time since the bot was created
    with the microseconds dropped, not rounded. *)
Theorem show_stats_uptime_in_whole_seconds guilds now rt :
  ∃ e,
    replies (snd (show_stats guilds now rt)) = replies rt ++ [SendEmbed e]
    ∧ embed_fields e !! 1%nat
      = Some {| field_name := "Uptime";
                field_value :=
                  timedelta_str ((now - start_time rt) / 86400000000)
                    (((now - start_time rt) mod 86400000000) / 1000000) 0;
                field_inline := true |}.
Proof.
  unfold show_stats, reply. cbn [snd replies]. eexists. split; [reflexivity|].
  cbn [add_field new_embed embed_fields app].
  assert (Hsecond : ∀ f0 f1 f2 : Field, [f0; f1; f2] !! 1%nat = Some f1) by done.
  rewrite Hsecond. do 2 f_equal.
  set (days := ((now - start_time rt) / 86400000000)%Z).
  set (seconds := (((now - start_time rt) mod 86400000000) / 1000000)%Z).
  destruct (decide ((now - start_time rt) mod 1000000 = 0)%Z) as [->|Hm].
  - apply before_no_sep, occurs_dot_timedelta_str.
  - rewrite timedelta_str_microseconds by done.
    apply before_app_sep, occurs_dot_timedelta_str.
Qed.

(** *** [close] *)

(** X16. [close] closes the session and keeps the cache; the bot can
    still look up: the next call that goes to the network opens a
    session again, and its request goes out. *)
Theorem close_then_lookup_reopens net now platform username rt req :
  stale_or_absent (world rt) now (platform, username) →
  request_for platform username = Some req →
  session_open (world (snd (close rt))) = false
  ∧ cache (world (snd (close rt))) = cache (world rt)
  ∧ session_open (world (snd (lift (check_platform net now platform username)
                                 (snd (close rt))))) = true
  ∧ sent (world (snd (lift (check_platform net now platform username)
                         (snd (close rt)))))
    = sent (world rt) ++ [req].
Proof.
  intros Hmiss Hreq.
  assert (Hclosed : session_open (world (snd (close rt))) = false
                    ∧ cache (world (snd (close rt))) = cache (world rt)
                    ∧ sent (world (snd (close rt))) = sent (world rt)).
  { unfold close. by destruct (session_open (world rt)) eqn:Ho. }
  destruct Hclosed as (Hs & Hc & Hsent). split_and!; [done..| |].
  - rewrite lift_run. cbn [snd world].
    rewrite miss_run, Hreq by (unfold stale_or_absent; by rewrite Hc).
    destruct (net req) as [code|e]; [done|]. by destruct (transport_error e).
  - rewrite lift_run. cbn [snd world].
    rewrite miss_run, Hreq by (unfold stale_or_absent; by rewrite Hc).
    destruct (net req) as [code|e]; [|destruct (transport_error e)];
      cbn [snd stored failed requested sent]; by rewrite Hsent.
Qed.

Lemma close_then_lookup_reopens_witness :
  session_open (world (snd (close (init 0)))) = false
  ∧ cache (world (snd (close (init 0)))) = cache (world (init 0))
  ∧ session_open (world (snd (lift (check_platform (answers 404) 0
                                      "github" "alice")
                                 (snd (close (init 0)))))) = true
  ∧ sent (world (snd (lift (check_platform (answers 404) 0 "github" "alice")
                         (snd (close (init 0))))))
    = sent (world (init 0))
      ++ [{| req_url := "https://api.github.com/users/alice";
             allow_redirects := true |}].
Proof.
  apply (close_then_lookup_reopens (answers 404) 0 "github" "alice" (init 0)).
  - apply fresh_world_absent.
  - reflexivity.
Defined.

(** *** What [username_check] shows and what the cache holds *)

Lemma check_platform_agrees net now platform username w available :
  fst (check_platform net now platform username w) = Returns available →
  agrees_with_cache (snd (check_platform net now platform username w))
    username platform available.
Proof.
  destruct (check_platform_kind net now platform username w)
    as [t r Hc Ht | | req code Hmiss Hreq Hcode | |];
    cbn [fst snd]; intros Heq; simplify_eq; cbn [agrees_with_cache]; try done.
  - by exists t.
  - exists now. cbn [stored cache]. apply lookup_insert_eq.
Qed.

Lemma check_platform_keeps_agreement net now platform username w other r :
  other ≠ platform →
  agrees_with_cache w username other r →
  agrees_with_cache (snd (check_platform net now platform username w))
    username other r.
Proof.
  intros Hne. destruct r as [b|]; [|done]. intros [t Ht]. exists t.
  destruct (check_platform_kind net now platform username w);
    cbn [snd stored failed requested opened cache]; try done.
  rewrite lookup_insert_ne; [done|congruence].
Qed.

Lemma check_all_agrees net clock username keys :
  ∀ results rt results' rt',
    check_all net clock username keys results rt = (Returns results', rt') →
    ∀ p, (p ∈ keys
          ∨ ∃ r, dict_get results p = Some r
                 ∧ agrees_with_cache (world rt) username p r) →
         ∃ r, dict_get results' p = Some r
              ∧ agrees_with_cache (world rt') username p r.
Proof.
  induction keys as [|key keys IH]; intros results rt results' rt' Hrun p Hp.
  { cbn in Hrun. injection Hrun as <- <-. destruct Hp as [Hin|?]; [|done].
    by apply elem_of_nil in Hin. }
  rewrite check_all_cons, lift_run in Hrun.
  destruct (fst (check_platform _ _ _ _ _)) as [available|e] eqn:Hcall;
    [|discriminate].
  eapply IH; [exact Hrun|]. cbn [world].
  destruct (decide (p = key)) as [->|Hne].
  - right. exists available. split; [apply dict_get_set_eq|].
    by apply check_platform_agrees.
  - destruct Hp as [Hin|(r & Hr & Hagree)].
    + apply elem_of_cons in Hin as [?|Hin]; [done|by left].
    + right. exists r. split; [by rewrite dict_get_set_ne|].
      by apply check_platform_keeps_agreement.
Qed.

(** X17. What a [username_check] that returns shows is what the cache
    holds: every field of every embed it sends is the field of a
    platform of the table, with the link to its profile, and when it
    says Available or Taken the entry of that platform and username in
    the cache after the command holds that result. *)
Theorem username_check_shows_what_is_cached fullmatch net clock username rt :
  fst (username_check fullmatch net clock username rt) = Returns tt →
  ∃ news,
    replies (snd (username_check fullmatch net clock username rt))
    = replies rt ++ news
    ∧ ∀ e f, SendEmbed e ∈ news → f ∈ embed_fields e →
        ∃ platform spec available,
          dict_get platforms platform = Some spec
          ∧ field_name f = capitalize platform
          ∧ field_value f = status_text available +:+ newline +:+ "[Check]("
                            +:+ url spec +:+ username +:+ ")"
          ∧ agrees_with_cache
              (world (snd (username_check fullmatch net clock username rt)))
              username platform available.
Proof.
  rewrite username_check_run.
  pose proof (check_all_same_bot net clock username (map fst platforms) []
                (started fullmatch username rt)) as (_ & _ & Hreplies).
  destruct (check_all _ _ _ _ _ _) as [[results|e] rt'] eqn:Hrun;
    [|discriminate].
  intros _. cbn [snd replied replies world] in *.
  exists ([Defer] ++ warning fullmatch username
          ++ [SendEmbed (chunk_embed results username
                           ["twitch"; "tiktok"; "reddit"]);
              SendEmbed (chunk_embed results username
                           ["twitch"; "tiktok"; "reddit"])]).
  split.
  { rewrite Hreplies. cbn [started replies]. by rewrite <- !app_assoc. }
  intros e f He Hf.
  assert (Hemb : e = chunk_embed results username ["twitch"; "tiktok"; "reddit"]).
  { apply elem_of_app in He as [He|He].
    { apply list_elem_of_singleton in He. discriminate. }
    apply elem_of_app in He as [He|He].
    { unfold warning in He. destruct (invalid_platforms _ _); [|].
      - by apply elem_of_nil in He.
      - apply list_elem_of_singleton in He. discriminate. }
    apply elem_of_cons in He as [He|He]; [congruence|].
    apply list_elem_of_singleton in He. congruence. }
  subst e. cbn [chunk_embed embed_fields] in Hf.
  apply list_elem_of_fmap in Hf as (platform & -> & Hplatform).
  assert (Hin : platform ∈ map fst platforms).
  { exact (subseteq_drop 6 (map fst platforms) platform Hplatform). }
  destruct (check_all_agrees _ _ _ _ _ _ _ _ Hrun platform (or_introl Hin))
    as (available & Havailable & Hagree).
  assert (Hspec : is_Some (dict_get platforms platform)).
  { clear Hplatform Havailable Hagree. revert platform Hin.
    apply Forall_forall, platforms_configured. }
  destruct Hspec as [spec Hspec].
  exists platform, spec, available. unfold result_field. cbn [field_name field_value].
  rewrite Havailable, Hspec. by split_and!.
Qed.

Lemma username_check_shows_what_is_cached_witness :
  ∃ news,
    replies (snd (username_check (λ _ _, true) (λ _, answers 404) (λ _, 0%Q)
                    "alice" (init 0)))
    = replies (init 0) ++ news
    ∧ ∀ e f, SendEmbed e ∈ news → f ∈ embed_fields e →
        ∃ platform spec available,
          dict_get platforms platform = Some spec
          ∧ field_name f = capitalize platform
          ∧ field_value f = status_text available +:+ newline +:+ "[Check]("
                            +:+ url spec +:+ "alice" +:+ ")"
          ∧ agrees_with_cache
              (world (snd (username_check (λ _ _, true) (λ _, answers 404)
                             (λ _, 0%Q) "alice" (init 0))))
              "alice" platform available.
Proof.
  apply (username_check_shows_what_is_cached (λ _ _, true) (λ _, answers 404)
           (λ _, 0%Q) "alice" (init 0)).
  reflexivity.
Defined.

End CommandProps.
